(** * edx-search: the HTTP views of [search/views.py]

    A shallow embedding of the two views [do_search] and [course_discovery]
    and of their helpers [_process_pagination_values] and
    [_process_field_values], followed by the properties of the request
    normalisation and result shaping contract.

    Python values are modelled as a tree of JSON-like values, dictionaries as
    finite maps, and the views as computations in a state-and-exception monad
    whose state holds the reassigned locals ([results], [status_code]) and the
    chronological list of calls made to the collaborators. *)

From Stdlib Require Import ZArith String Ascii List Lia.
From stdpp Require Import gmap strings list fin_maps pretty.

Set Warnings "-register-all".
Open Scope Z_scope.

(** ** Python values and exceptions *)

(** The values that travel through the views: what the search collaborators
    return (decoded JSON) and what [json.dumps] serialises. A [dict] with
    string keys is a [gmap]. A value is a tree: two entries of a dictionary
    never share one mutable object. *)
Inductive pyval : Type :=
| PNone
| PBool (b : bool)
| PInt (n : Z)
| PStr (s : string)
| PList (l : list pyval)
| PDict (d : gmap string pyval).

(** Exceptions deriving from [Exception]. [ValueError] is the class the first
    handler of the views catches; all the others reach the broad handler. *)
Inductive exn : Type :=
| ValueError (msg : string)
| KeyError (key : string)
| TypeError (msg : string)
| AttributeError (msg : string)
| OtherError (msg : string).

(** Result of running a piece of Python code. *)
Inductive outcome (A : Type) : Type :=
| Ret (a : A)
| Raise (e : exn).
Arguments Ret {A} a.
Arguments Raise {A} e.

Definition is_ValueError (e : exn) : bool :=
  match e with ValueError _ => true | _ => false end.

(** [unicode(err)]: the message the exception carries. *)
Definition unicode_exn (e : exn) : string :=
  match e with
  | ValueError m | TypeError m | AttributeError m | OtherError m => m
  | KeyError k => "'" +:+ k +:+ "'"
  end.

(** ** Builtins used by the views *)

(** [str(n)] as used by [str.format] on an integer. *)
Definition str_of_int (n : Z) : string := pretty n.

(** [template.format(field=value)] for a template with one replacement field
    [{field}]: the first occurrence of the field is replaced by the value. *)
Fixpoint format_field (template field value : string) : string :=
  match template with
  | EmptyString => EmptyString
  | String a r =>
      let pat := "{" +:+ field +:+ "}" in
      if String.prefix pat template then
        value +:+ substring (String.length pat)
                           (String.length template - String.length pat)
                           template
      else String a (format_field r field value)
  end.

(** [ugettext]: with no translation catalogue active the message id itself. *)
Definition ugettext (msgid : string) : string := msgid.

(** Truth value of [request.POST.get("search_string", None)]. *)
Definition truthy (s : option string) : bool :=
  match s with
  | None => false
  | Some EmptyString => false
  | Some _ => true
  end.

(** [x[k]] for a string key [k]. *)
Definition py_getitem (x : pyval) (k : string) : outcome pyval :=
  match x with
  | PDict d =>
      match d !! k with
      | Some v => Ret v
      | None => Raise (KeyError k)
      end
  | PList _ => Raise (TypeError "list indices must be integers, not str")
  | PStr _ => Raise (TypeError "string indices must be integers, not str")
  | _ => Raise (TypeError "object has no attribute '__getitem__'")
  end.

(** [x[k] = v]: the container after the assignment. *)
Definition py_setitem (x : pyval) (k : string) (v : pyval) : outcome pyval :=
  match x with
  | PDict d => Ret (PDict (<[k := v]> d))
  | PList _ => Raise (TypeError "list indices must be integers, not str")
  | _ => Raise (TypeError "object does not support item assignment")
  end.

(** [x.has_key(k)]. *)
Definition py_has_key (x : pyval) (k : string) : outcome bool :=
  match x with
  | PDict d => Ret (bool_decide (is_Some (d !! k)))
  | _ => Raise (AttributeError "object has no attribute 'has_key'")
  end.

(** ** Requests, settings and collaborators *)

Record user : Type := { id : option Z }.

(** A POST request (the [require_POST] decorator answers every other method
    before the view runs). [request.POST] is read as a dictionary: each
    submitted key with the value that indexing returns for it. *)
Record request : Type := {
  POST : gmap string string;
  request_user : user
}.

(** What the module takes from its surroundings rather than from its
    arguments: of [django.conf.settings], an attribute that may be missing
    and the [FEATURES] dictionary of flags; of the interpreter, the builtin
    [int] applied to a string, given by the integer it reads ([None] when it
    raises) and by the message of the [ValueError] it then raises. Nothing
    is assumed of which strings [int] reads. *)
Record settings : Type := {
  SEARCH_MAX_PAGE_SIZE : option Z;
  FEATURES : gmap string bool;
  int_literal : string -> option Z;
  int_message : string -> string
}.

(** [int(s)]: the value, or the [ValueError] of the builtin. *)
Definition py_int (cfg : settings) (s : string) : outcome Z :=
  match int_literal cfg s with
  | Some n => Ret n
  | None => Raise (ValueError (int_message cfg s))
  end.

(** The modules the views import and call: [SearchInitializer], the event
    tracker, [search.api] and [taxoman_api.api]. Each call either returns or
    raises, and what it does depends on its arguments only. *)
Record collaborators : Type := {
  set_search_enviroment : request -> option string -> outcome unit;
  track_emit : string -> gmap string pyval -> outcome unit;
  perform_search :
    option string -> user -> Z -> Z -> option string -> outcome pyval;
  course_discovery_search :
    option string -> Z -> Z -> gmap string string -> outcome pyval;
  course_discovery_filter_fields : list string;
  get_facet_slugs_display_order : outcome (gmap string pyval);
  get_facet_values_display_order : string -> outcome pyval
}.

(** ** Request normalisation *)

Definition max_page_size (cfg : settings) : Z :=
  default 100 (SEARCH_MAX_PAGE_SIZE cfg).

(** [_process_pagination_values]: returns [(size, from_, page)]. *)
Definition _process_pagination_values (cfg : settings) (req : request)
  : outcome (Z * Z * Z) :=
  match POST req !! "page_size" with
  | None => Ret (20, 0, 0)
  | Some raw_size =>
      match py_int cfg raw_size with
      | Raise e => Raise e
      | Ret size =>
          if negb ((0 <? size) && (size <=? max_page_size cfg)) then
            Raise (ValueError
                     (format_field (ugettext "Invalid page size of {page_size}")
                                   "page_size" (str_of_int size)))
          else
            match POST req !! "page_index" with
            | None => Ret (size, 0, 0)
            | Some raw_page =>
                match py_int cfg raw_page with
                | Raise e => Raise e
                | Ret page => Ret (size, page * size, page)
                end
            end
      end
  end.

(** [_process_field_values]: the comprehension over [request.POST]. *)
Definition _process_field_values (env : collaborators) (req : request)
  : gmap string string :=
  filter (λ kv, kv.1 ∈ course_discovery_filter_fields env) (POST req).

(** ** The views *)

(** What a view has in hand while it runs: the calls made so far to the
    collaborators and the logger, oldest first, and the two locals that the
    [try] block and its handlers reassign. *)
Inductive event : Type :=
| EvInit (req : request) (course_id : option string)
| EvEmit (name : string) (payload : gmap string pyval)
| EvPerformSearch (term : option string) (u : user) (size from_ : Z)
                  (course_id : option string)
| EvDiscoverySearch (term : option string) (size from_ : Z)
                    (field_dictionary : gmap string string)
| EvSlugsOrder
| EvFacetValuesOrder (slug : string)
| EvLogDebug (msg : string)
| EvLogException (term : option string) (user_id : option Z) (err : exn).

Record frame : Type := {
  calls : list event;
  results : pyval;
  status_code : Z
}.

(** A statement: it returns or raises, and the frame it leaves behind is
    kept in both cases, as Python keeps assignments made before a [raise]. *)
Definition M (A : Type) : Type := frame -> outcome A * frame.

#[global] Instance M_ret : MRet M := λ A a fr, (Ret a, fr).
#[global] Instance M_bind : MBind M := λ A B k c fr,
  match c fr with
  | (Ret a, fr') => k a fr'
  | (Raise e, fr') => (Raise e, fr')
  end.

Definition raise {A : Type} (e : exn) : M A := λ fr, (Raise e, fr).

Definition lift {A : Type} (o : outcome A) : M A := λ fr, (o, fr).

(** [try: body except Exception as e: handler e]. *)
Definition try_except {A : Type} (body : M A) (handler : exn -> M A) : M A :=
  λ fr,
    match body fr with
    | (Ret a, fr') => (Ret a, fr')
    | (Raise e, fr') => handler e fr'
    end.

Definition get_results : M pyval := λ fr, (Ret (results fr), fr).
Definition get_status_code : M Z := λ fr, (Ret (status_code fr), fr).

Definition set_results (v : pyval) : M unit := λ fr,
  (Ret tt, {| calls := calls fr; results := v; status_code := status_code fr |}).

Definition set_status_code (n : Z) : M unit := λ fr,
  (Ret tt, {| calls := calls fr; results := results fr; status_code := n |}).

(** A call to a collaborator: noted in [calls], then its outcome. *)
Definition call {A : Type} (ev : event) (o : outcome A) : M A := λ fr,
  (o, {| calls := calls fr ++ [ev];
         results := results fr;
         status_code := status_code fr |}).

(** [for x in l: body x]. *)
Fixpoint for_each {A : Type} (l : list A) (body : A -> M unit) : M unit :=
  match l with
  | [] => mret tt
  | x :: l' => body x;; for_each l' body
  end.

Record HttpResponse : Type := {
  content : pyval;        (* the value [json.dumps] serialises *)
  content_type : string;
  status : Z
}.

Definition dquote : string :=
  String (Ascii false true false false false true false false) EmptyString.

(** [str.format] applied to [search_term], which may be [None]. *)
Definition str_of_term (term : option string) : string :=
  default "None" term.

Definition pyval_of_term (term : option string) : pyval :=
  match term with
  | Some s => PStr s
  | None => PNone
  end.

(** The dictionary [{"error": msg}]. *)
Definition error_body (msg : string) : pyval :=
  PDict {[ "error" := PStr msg ]}.

Definition generic_error_message (term : option string) : string :=
  format_field
    (ugettext ("An error occurred when searching for "
                 +:+ dquote +:+ "{search_string}" +:+ dquote))
    "search_string" (str_of_term term).

Definition initiated_payload (term : option string) (size page : Z)
  : gmap string pyval :=
  <["search_term" := pyval_of_term term]>
    (<["page_size" := PInt size]> (<["page_number" := PInt page]> ∅)).

Definition displayed_payload (term : option string) (size page : Z)
    (total : pyval) : gmap string pyval :=
  <["search_term" := pyval_of_term term]>
    (<["page_size" := PInt size]>
       (<["page_number" := PInt page]> (<["results_count" := total]> ∅))).

Definition log_debug (msg : string) : M unit :=
  call (EvLogDebug msg) (Ret tt).

Definition log_exception (term : option string) (req : request) (err : exn)
  : M unit :=
  call (EvLogException term (id (request_user req)) err) (Ret tt).

(** The two [except] clauses shared by both views. *)
Definition handle_error (req : request) (search_term : option string)
    (e : exn) : M unit :=
  match e with
  | ValueError _ =>
      set_results (error_body (unicode_exn e));;
      log_debug (unicode_exn e)
  | _ =>
      set_results (error_body (generic_error_message search_term));;
      log_exception search_term req e
  end.

(** [return HttpResponse(json.dumps(results), ..., status=status_code)]. *)
Definition respond : M HttpResponse :=
  res ← get_results;
  code ← get_status_code;
  mret {| content := res;
          content_type := "application/json";
          status := code |}.

Definition do_search (cfg : settings) (env : collaborators)
    (req : request) (course_id : option string) : M HttpResponse :=
  call (EvInit req course_id) (set_search_enviroment env req course_id);;
  set_results (error_body (ugettext "Nothing to search"));;
  set_status_code 500;;
  let search_term := POST req !! "search_string" in
  try_except
    ((if negb (truthy search_term) then
        raise (ValueError (ugettext "No search term provided for search"))
      else mret tt);;
     '(size, from_, page) ← lift (_process_pagination_values cfg req);
     call (EvEmit "edx.course.search.initiated"
                  (initiated_payload search_term size page))
          (track_emit env "edx.course.search.initiated"
                      (initiated_payload search_term size page));;
     r ← call (EvPerformSearch search_term (request_user req) size from_
                               course_id)
              (perform_search env search_term (request_user req) size from_
                              course_id);
     set_results r;;
     set_status_code 200;;
     res ← get_results;
     total ← lift (py_getitem res "total");
     call (EvEmit "edx.course.search.results_displayed"
                  (displayed_payload search_term size page total))
          (track_emit env "edx.course.search.results_displayed"
                      (displayed_payload search_term size page total)))
    (handle_error req search_term);;
  respond.

(** [results['facets'][slug][field] = v]: the nested dictionary is updated in
    place, which the tree of values shows as a rebuilt [results]. *)
Definition set_facet_field (slug field : string) (v : pyval) : M unit :=
  res ← get_results;
  facets ← lift (py_getitem res "facets");
  facet ← lift (py_getitem facets slug);
  facet' ← lift (py_setitem facet field v);
  facets' ← lift (py_setitem facets slug facet');
  res' ← lift (py_setitem res "facets" facets');
  set_results res'.

(** One turn of the loop over [slugs_display_order.iteritems()]. *)
Definition annotate_facet (env : collaborators) (entry : string * pyval)
  : M unit :=
  let slug := entry.1 in
  let display_order := entry.2 in
  res ← get_results;
  facets ← lift (py_getitem res "facets");
  present ← lift (py_has_key facets slug);
  if (present : bool) then
    set_facet_field slug "display_order" display_order;;
    fv_display_orders ← call (EvFacetValuesOrder slug)
                             (get_facet_values_display_order env slug);
    set_facet_field slug "facet_values" fv_display_orders
  else mret tt.

(** The value of [settings.FEATURES.get('ENABLE_TAXOMAN', False)]. *)
Definition taxoman_enabled (cfg : settings) : bool :=
  default false (FEATURES cfg !! "ENABLE_TAXOMAN").

(** The block guarded by the feature flag. [iteritems()] yields the entries
    of the dictionary in some order, each slug once; [map_to_list] is one such
    order, and what is proved of the loop is proved for every one of them. *)
Definition taxoman_block (cfg : settings) (env : collaborators) : M unit :=
  if taxoman_enabled cfg then
    slugs_display_order ← call EvSlugsOrder (get_facet_slugs_display_order env);
    for_each (map_to_list slugs_display_order) (annotate_facet env)
  else mret tt.

Definition course_discovery (cfg : settings) (env : collaborators)
    (req : request) : M HttpResponse :=
  set_results (error_body (ugettext "Nothing to search"));;
  set_status_code 500;;
  let search_term := POST req !! "search_string" in
  try_except
    ('(size, from_, page) ← lift (_process_pagination_values cfg req);
     let field_dictionary := _process_field_values env req in
     call (EvEmit "edx.course_discovery.search.initiated"
                  (initiated_payload search_term size page))
          (track_emit env "edx.course_discovery.search.initiated"
                      (initiated_payload search_term size page));;
     r ← call (EvDiscoverySearch search_term size from_ field_dictionary)
              (course_discovery_search env search_term size from_
                                       field_dictionary);
     set_results r;;
     res ← get_results;
     total ← lift (py_getitem res "total");
     call (EvEmit "edx.course_discovery.search.results_displayed"
                  (displayed_payload search_term size page total))
          (track_emit env "edx.course_discovery.search.results_displayed"
                      (displayed_payload search_term size page total));;
     set_status_code 200)
    (handle_error req search_term);;
  taxoman_block cfg env;;
  respond.

(** A view is entered with no call made yet; its locals are unbound until
    their first assignment, which always comes before their first use. *)
Definition entry_frame : frame :=
  {| calls := []; results := PNone; status_code := 0 |}.

Definition run {A : Type} (c : M A) : outcome A * frame := c entry_frame.

(** ** Observations on a run *)

(** The analytics events of a run, oldest first. *)
Definition emitted (tr : list event) : list (string * gmap string pyval) :=
  omap (λ ev, match ev with EvEmit n p => Some (n, p) | _ => None end) tr.

Definition is_search_call (ev : event) : bool :=
  match ev with
  | EvPerformSearch _ _ _ _ _ | EvDiscoverySearch _ _ _ _ => true
  | _ => false
  end.

(** The calls to [perform_search] and [course_discovery_search] of a run. *)
Definition search_calls (tr : list event) : list event :=
  List.filter is_search_call tr.

(** What the search collaborator answered to a call found in the run. *)
Definition search_outcome (env : collaborators) (ev : event)
  : option (outcome pyval) :=
  match ev with
  | EvPerformSearch t u s f c => Some (perform_search env t u s f c)
  | EvDiscoverySearch t s f fd => Some (course_discovery_search env t s f fd)
  | _ => None
  end.

Definition search_returned (env : collaborators) (tr : list event)
    (r : pyval) : Prop :=
  ∃ ev, ev ∈ tr ∧ search_outcome env ev = Some (Ret r).

Definition search_raised (env : collaborators) (tr : list event)
    (e : exn) : Prop :=
  ∃ ev, ev ∈ tr ∧ search_outcome env ev = Some (Raise e).

Definition is_taxoman_call (ev : event) : bool :=
  match ev with
  | EvSlugsOrder | EvFacetValuesOrder _ => true
  | _ => false
  end.

(** What a statement of the display-order block leaves of the frame it
    started from: the status code, and the earlier calls, to which only calls
    to the ordering collaborator are added. *)
Definition extends (fr fr' : frame) : Prop :=
  status_code fr' = status_code fr
  ∧ ∃ extra, calls fr' = calls fr ++ extra
             ∧ Forall (λ ev, is_taxoman_call ev = true) extra.


(** How facet [slug] of the answer relates to facet [slug] of the search
    result, given the display order of the slugs: absent stays absent, a
    facet without display order is kept as it is, a facet with one gets the
    two annotations. *)
Definition facet_annotated (env : collaborators) (order : gmap string pyval)
    (facets facets' : gmap string pyval) (slug : string) : Prop :=
  match facets !! slug with
  | None => facets' !! slug = None
  | Some facet =>
      match order !! slug with
      | None => facets' !! slug = Some facet
      | Some display_order =>
          ∃ fields fv,
            facet = PDict fields
            ∧ get_facet_values_display_order env slug = Ret fv
            ∧ facets' !! slug
              = Some (PDict (<["facet_values" := fv]>
                               (<["display_order" := display_order]> fields)))
      end
  end.

(** The answer [c] is the search result [r] with its facets annotated and
    nothing else changed. *)
Definition results_annotated (env : collaborators)
    (order : gmap string pyval) (r c : pyval) : Prop :=
  (order = ∅ ∧ c = r)
  ∨ ∃ rd facets facets',
      r = PDict rd
      ∧ rd !! "facets" = Some (PDict facets)
      ∧ c = PDict (<["facets" := PDict facets']> rd)
      ∧ ∀ slug, facet_annotated env order facets facets' slug.

(** The facets that the loop over [l] will annotate are dictionaries and
    the ordering collaborator answers for their slugs. *)
Definition annotatable (env : collaborators) (l : list (string * pyval))
    (facets : gmap string pyval) : Prop :=
  ∀ slug d, (slug, d) ∈ l →
    match facets !! slug with
    | None => True
    | Some facet =>
        (∃ fields, facet = PDict fields)
        ∧ ∃ fv, get_facet_values_display_order env slug = Ret fv
    end.

(** The [page_size] value reads as an integer inside [(0, max_page_size]]. *)
Definition valid_page_size (cfg : settings) (raw : string) : Prop :=
  ∃ n, int_literal cfg raw = Some n ∧ 0 < n ≤ max_page_size cfg.

(** ** Reference definition of pagination, after the specification

    [normalize_pagination(raw_params, max_page_size)]: without a page-size key
    the defaults; with one, the size parsed as an integer, inside
    [(0, max_page_size]], the page index parsed as an integer when that key
    is present, and the offset [page_index * size]. [None] stands for a
    rejected request; [parse] is the reading of a string as an integer. *)
Definition normalize_pagination (parse : string -> option Z)
    (raw_params : gmap string string) (max_size : Z) : option (Z * Z * Z) :=
  match raw_params !! "page_size" with
  | None => Some (20, 0, 0)
  | Some raw_size =>
      size ← parse raw_size;
      guard (0 < size ≤ max_size);;
      match raw_params !! "page_index" with
      | None => Some (size, 0, 0)
      | Some raw_page =>
          page_index ← parse raw_page;
          Some (size, page_index * size, page_index)
      end
  end.

(** ** Sample configuration, collaborators and requests *)

Definition mk_request (l : list (string * string)) : request :=
  {| POST := list_to_map l; request_user := {| id := Some 7 |} |}.

Definition is_digit (a : ascii) : bool :=
  let n := nat_of_ascii a in (48 <=? n)%nat && (n <=? 57)%nat.

Definition is_space (a : ascii) : bool :=
  let n := nat_of_ascii a in
  (n =? 32)%nat || ((9 <=? n)%nat && (n <=? 13)%nat).

Definition digit_value (a : ascii) : Z := Z.of_nat (nat_of_ascii a) - 48.

Fixpoint lstrip (s : string) : string :=
  match s with
  | String a r => if is_space a then lstrip r else s
  | EmptyString => EmptyString
  end.

Fixpoint rstrip (s : string) : string :=
  match s with
  | EmptyString => EmptyString
  | String a r =>
      match rstrip r with
      | EmptyString => if is_space a then EmptyString else String a EmptyString
      | r' => String a r'
      end
  end.

(** Value of a run of decimal digits, [None] when another character occurs. *)
Fixpoint digits_value (acc : Z) (s : string) : option Z :=
  match s with
  | EmptyString => Some acc
  | String a r =>
      if is_digit a then digits_value (10 * acc + digit_value a) r else None
  end.

Definition unsigned_literal (s : string) : option Z :=
  match s with
  | EmptyString => None
  | _ => digits_value 0 s
  end.

(** A stand-in for the builtin [int], to run the samples with: it reads an
    optional sign and decimal digits between ASCII blanks. On every string
    it reads, [int] gives the same integer; [int] reads other strings too
    (digits and blanks outside ASCII), so this is not [int], and only the
    sample settings below refer to it. *)
Definition decimal_literal (s : string) : option Z :=
  match rstrip (lstrip s) with
  | EmptyString => None
  | String a r =>
      if Ascii.eqb a "-" then Z.opp <$> unsigned_literal r
      else if Ascii.eqb a "+" then unsigned_literal r
      else unsigned_literal (String a r)
  end.

(** The message [int] raises its [ValueError] with for a value made of
    letters and digits, such as the values of the samples. *)
Definition decimal_message (s : string) : string :=
  "invalid literal for int() with base 10: '" +:+ s +:+ "'".

Definition default_settings : settings :=
  {| SEARCH_MAX_PAGE_SIZE := None; FEATURES := ∅;
     int_literal := decimal_literal; int_message := decimal_message |}.

Definition taxoman_settings : settings :=
  {| SEARCH_MAX_PAGE_SIZE := None;
     FEATURES := {[ "ENABLE_TAXOMAN" := true ]};
     int_literal := decimal_literal; int_message := decimal_message |}.

Definition sample_facets : gmap string pyval :=
  <["org" := PDict {[ "total" := PInt 2 ]}]> {[ "language" := PDict ∅ ]}.

Definition sample_result : pyval :=
  PDict (<["total" := PInt 3]>
           (<["results" := PList []]>
              (<["facets" := PDict sample_facets]> ∅))).

Definition sample_order : gmap string pyval :=
  <["org" := PInt 1]> {[ "subject" := PInt 2 ]}.

Definition sample_values : pyval := PList [PStr "edX"; PStr "MITx"].

(** Collaborators that all answer. *)
Definition healthy : collaborators := {|
  set_search_enviroment := λ _ _, Ret tt;
  track_emit := λ _ _, Ret tt;
  perform_search := λ _ _ _ _ _, Ret sample_result;
  course_discovery_search := λ _ _ _ _, Ret sample_result;
  course_discovery_filter_fields := ["org"; "language"; "modes"];
  get_facet_slugs_display_order := Ret sample_order;
  get_facet_values_display_order := λ _, Ret sample_values
|}.

(** The search engine is down. *)
Definition search_down : collaborators := {|
  set_search_enviroment := λ _ _, Ret tt;
  track_emit := λ _ _, Ret tt;
  perform_search := λ _ _ _ _ _, Raise (OtherError "connection refused");
  course_discovery_search := λ _ _ _ _, Raise (OtherError "connection refused");
  course_discovery_filter_fields := ["org"; "language"; "modes"];
  get_facet_slugs_display_order := Ret sample_order;
  get_facet_values_display_order := λ _, Ret sample_values
|}.

(** The analytics sink refuses the results-displayed events. *)
Definition sink_down : collaborators := {|
  set_search_enviroment := λ _ _, Ret tt;
  track_emit := λ name _,
    if bool_decide (name = "edx.course.search.initiated"
                    ∨ name = "edx.course_discovery.search.initiated")
    then Ret tt else Raise (OtherError "tracker unavailable");
  perform_search := λ _ _ _ _ _, Ret sample_result;
  course_discovery_search := λ _ _ _ _, Ret sample_result;
  course_discovery_filter_fields := ["org"; "language"; "modes"];
  get_facet_slugs_display_order := Ret sample_order;
  get_facet_values_display_order := λ _, Ret sample_values
|}.

(** The search environment cannot be set up. *)
Definition setup_down : collaborators := {|
  set_search_enviroment := λ _ _, Raise (OtherError "no search engine");
  track_emit := λ _ _, Ret tt;
  perform_search := λ _ _ _ _ _, Ret sample_result;
  course_discovery_search := λ _ _ _ _, Ret sample_result;
  course_discovery_filter_fields := ["org"; "language"; "modes"];
  get_facet_slugs_display_order := Ret sample_order;
  get_facet_values_display_order := λ _, Ret sample_values
|}.

Definition robotics_request : request :=
  mk_request [("search_string", "robotics"); ("page_size", "10");
              ("page_index", "2")].

Definition no_term_request : request :=
  mk_request [("page_size", "10"); ("page_index", "2")].

Definition no_page_size_request : request :=
  mk_request [("search_string", "robotics"); ("page_index", "7")].

Definition zero_page_size_request : request :=
  mk_request [("search_string", "robotics"); ("page_size", "0")].

Definition bad_index_request : request :=
  mk_request [("search_string", "robotics"); ("page_size", "10");
              ("page_index", "abc")].

Definition bad_index_no_term_request : request :=
  mk_request [("page_size", "10"); ("page_index", "abc")].

Definition negative_index_request : request :=
  mk_request [("search_string", "robotics"); ("page_size", "10");
              ("page_index", "-2")].

(** A request for page [k] with one result per page. *)
Definition page_request (k : Z) : request :=
  mk_request [("page_size", "1"); ("page_index", str_of_int k)].

Definition empty_request : request := mk_request [].

Definition filter_request : request :=
  mk_request [("org", "edX"); ("evil", "1"); ("page_size", "3")].

(** The answer expected for [robotics_request] from the healthy
    collaborators when the display-order feature is enabled. *)
Definition annotated_facets : gmap string pyval :=
  <["org" := PDict (<["facet_values" := sample_values]>
                      (<["display_order" := PInt 1]>
                         {[ "total" := PInt 2 ]}))]>
    {[ "language" := PDict ∅ ]}.

Definition annotated_response : HttpResponse :=
  {| content := PDict (<["total" := PInt 3]>
                         (<["results" := PList []]>
                            (<["facets" := PDict annotated_facets]> ∅)));
     content_type := "application/json";
     status := 200 |}.

(** ** Further observations and samples *)

Definition is_log_call (ev : event) : bool :=
  match ev with
  | EvLogDebug _ | EvLogException _ _ _ => true
  | _ => false
  end.

(** The entries the views wrote to the log, oldest first. *)
Definition log_calls (tr : list event) : list event :=
  List.filter is_log_call tr.

(** The calls of a run to the ordering collaborator. *)
Definition taxoman_calls (tr : list event) : list event :=
  List.filter is_taxoman_call tr.

(** The request seen by a second pass of [_process_field_values]: the same
    request with the filtered dictionary in place of [request.POST]. *)
Definition with_POST (req : request) (post : gmap string string) : request :=
  {| POST := post; request_user := request_user req |}.

Definition small_limit_settings : settings :=
  {| SEARCH_MAX_PAGE_SIZE := Some 10; FEATURES := ∅;
     int_literal := decimal_literal; int_message := decimal_message |}.

Definition large_limit_settings : settings :=
  {| SEARCH_MAX_PAGE_SIZE := Some 500; FEATURES := ∅;
     int_literal := decimal_literal; int_message := decimal_message |}.

(** The same collaborators with another list of filter fields. *)
Definition with_filter_fields (env : collaborators) (fields : list string)
  : collaborators :=
  {| set_search_enviroment := set_search_enviroment env;
     track_emit := track_emit env;
     perform_search := perform_search env;
     course_discovery_search := course_discovery_search env;
     course_discovery_filter_fields := fields;
     get_facet_slugs_display_order := get_facet_slugs_display_order env;
     get_facet_values_display_order := get_facet_values_display_order env |}.

(** The search engine rejects the query with a [ValueError] of its own. *)
Definition search_rejects : collaborators := {|
  set_search_enviroment := λ _ _, Ret tt;
  track_emit := λ _ _, Ret tt;
  perform_search := λ _ _ _ _ _, Raise (ValueError "Malformed query");
  course_discovery_search := λ _ _ _ _, Raise (ValueError "Malformed query");
  course_discovery_filter_fields := ["org"; "language"; "modes"];
  get_facet_slugs_display_order := Ret sample_order;
  get_facet_values_display_order := λ _, Ret sample_values
|}.

(** The end of [course_discovery], after the [try] statement: the
    display-order block and the [return]. *)
Definition finish (cfg : settings) (env : collaborators) : M HttpResponse :=
  taxoman_block cfg env;; respond.

(** The ordering collaborator is down. *)
Definition ordering_down : collaborators := {|
  set_search_enviroment := λ _ _, Ret tt;
  track_emit := λ _ _, Ret tt;
  perform_search := λ _ _ _ _ _, Ret sample_result;
  course_discovery_search := λ _ _ _ _, Ret sample_result;
  course_discovery_filter_fields := ["org"; "language"; "modes"];
  get_facet_slugs_display_order := Raise (OtherError "taxoman unavailable");
  get_facet_values_display_order := λ _, Ret sample_values
|}.

(** The ordering collaborator knows no slug. *)
Definition no_ordering : collaborators := {|
  set_search_enviroment := λ _ _, Ret tt;
  track_emit := λ _ _, Ret tt;
  perform_search := λ _ _ _ _ _, Ret sample_result;
  course_discovery_search := λ _ _ _ _, Ret sample_result;
  course_discovery_filter_fields := ["org"; "language"; "modes"];
  get_facet_slugs_display_order := Ret ∅;
  get_facet_values_display_order := λ _, Ret sample_values
|}.

(** The frame [course_discovery] has when the healthy search has gone
    through, and the entries of the sample ordering in two orders. *)
Definition sample_frame : frame :=
  {| calls := []; results := sample_result; status_code := 200 |}.

Definition sample_entries : list (string * pyval) :=
  [("org", PInt 1); ("subject", PInt 2)].

Definition sample_entries_swapped : list (string * pyval) :=
  [("subject", PInt 2); ("org", PInt 1)].

(** The facets of a result, none when it has no [facets] dictionary. *)
Definition facets_of (v : pyval) : gmap string pyval :=
  match v with
  | PDict d =>
      match d !! "facets" with
      | Some (PDict facets) => facets
      | _ => ∅
      end
  | _ => ∅
  end.

(** * Properties *)

(** ** The scenarios of the specification, run on the embedding *)

Example generic_message_quotes_the_term :
  generic_error_message (Some "robotics")
  = "An error occurred when searching for " +:+ dquote +:+ "robotics"
      +:+ dquote
  ∧ generic_error_message None
    = "An error occurred when searching for " +:+ dquote +:+ "None"
        +:+ dquote.
Proof. split; vm_compute; reflexivity. Qed.

(** [{search_string: "robotics", page_size: "10", page_index: "2"}] on the
    scoped search: the collaborator is called with size 10 and offset 20, the
    answer has status 200 and carries the result. *)
Example scoped_search_scenario :
  run (do_search default_settings healthy robotics_request None)
  = (Ret {| content := sample_result; content_type := "application/json";
            status := 200 |},
     {| calls :=
          [EvInit robotics_request None;
           EvEmit "edx.course.search.initiated"
                  (initiated_payload (Some "robotics") 10 2);
           EvPerformSearch (Some "robotics") {| id := Some 7 |} 10 20 None;
           EvEmit "edx.course.search.results_displayed"
                  (displayed_payload (Some "robotics") 10 2 (PInt 3))];
        results := sample_result;
        status_code := 200 |}).
Proof. vm_compute. reflexivity. Qed.

(** [{page_size: "0"}]: status 500, the body names the page size, and the
    search collaborator is not called. *)
Example zero_page_size_scenario :
  run (do_search default_settings healthy zero_page_size_request None)
  = (Ret {| content := error_body "Invalid page size of 0";
            content_type := "application/json"; status := 500 |},
     {| calls := [EvInit zero_page_size_request None;
                  EvLogDebug "Invalid page size of 0"];
        results := error_body "Invalid page size of 0";
        status_code := 500 |}).
Proof. vm_compute. reflexivity. Qed.

(** Discovery without search string and without filters: the collaborator is
    called with [None] and an empty field dictionary. *)
Example discovery_browse_scenario :
  calls (run (course_discovery default_settings healthy empty_request)).2
  = [EvEmit "edx.course_discovery.search.initiated"
            (initiated_payload None 20 0);
     EvDiscoverySearch None 20 0 ∅;
     EvEmit "edx.course_discovery.search.results_displayed"
            (displayed_payload None 20 0 (PInt 3))].
Proof. vm_compute. reflexivity. Qed.

(** The allowed filter is kept, the other keys are dropped. *)
Example filter_scenario :
  _process_field_values healthy filter_request = {[ "org" := "edX" ]}.
Proof. vm_compute. reflexivity. Qed.

(** ** Pagination *)

Section Pagination.
Context (cfg : settings) (req : request).

Lemma py_int_Ret (s : string) (n : Z) :
  py_int cfg s = Ret n ↔ int_literal cfg s = Some n.
Proof.
  unfold py_int. destruct (int_literal cfg s); split; intros H;
    inversion H; subst; reflexivity.
Qed.

Lemma py_int_Raise (s : string) (e : exn) :
  py_int cfg s = Raise e →
  int_literal cfg s = None ∧ is_ValueError e = true.
Proof.
  unfold py_int. destruct (int_literal cfg s); intros H; inversion H; subst.
  split; reflexivity.
Qed.

Lemma in_range_test (n : Z) :
  negb ((0 <? n) && (n <=? max_page_size cfg)) = false
  ↔ 0 < n ≤ max_page_size cfg.
Proof.
  rewrite negb_false_iff, andb_true_iff, Z.ltb_lt, Z.leb_le. reflexivity.
Qed.

(** Without a [page_size] key the defaults are returned. *)
Lemma pagination_default :
  POST req !! "page_size" = None →
  _process_pagination_values cfg req = Ret (20, 0, 0).
Proof. intros H. unfold _process_pagination_values. rewrite H. reflexivity. Qed.

(** A valid [page_size] without [page_index]. *)
Lemma pagination_size_only (raw_size : string) (size : Z) :
  POST req !! "page_size" = Some raw_size →
  int_literal cfg raw_size = Some size →
  0 < size ≤ max_page_size cfg →
  POST req !! "page_index" = None →
  _process_pagination_values cfg req = Ret (size, 0, 0).
Proof.
  intros Hs Hn Hr Hp. unfold _process_pagination_values.
  rewrite Hs. apply py_int_Ret in Hn. rewrite Hn.
  apply in_range_test in Hr. rewrite Hr, Hp. reflexivity.
Qed.

(** A valid [page_size] with a numeric [page_index]. *)
Lemma pagination_size_and_index (raw_size raw_page : string) (size page : Z) :
  POST req !! "page_size" = Some raw_size →
  int_literal cfg raw_size = Some size →
  0 < size ≤ max_page_size cfg →
  POST req !! "page_index" = Some raw_page →
  int_literal cfg raw_page = Some page →
  _process_pagination_values cfg req = Ret (size, page * size, page).
Proof.
  intros Hs Hn Hr Hp Hk. unfold _process_pagination_values.
  rewrite Hs. apply py_int_Ret in Hn. rewrite Hn.
  apply in_range_test in Hr. rewrite Hr, Hp.
  apply py_int_Ret in Hk. rewrite Hk. reflexivity.
Qed.

(** The code accepts exactly what the reference definition accepts, with
    the same triple. *)
Lemma pagination_refines (r : Z * Z * Z) :
  _process_pagination_values cfg req = Ret r
  ↔ normalize_pagination (int_literal cfg) (POST req) (max_page_size cfg)
    = Some r.
Proof.
  unfold _process_pagination_values, normalize_pagination, py_int.
  destruct (POST req !! "page_size") as [raw_size|]; simpl.
  - destruct (int_literal cfg raw_size) as [size|]; simpl;
      [|split; discriminate].
    destruct (decide (0 < size ≤ max_page_size cfg)) as [Hr|Hr].
    + rewrite (proj2 (in_range_test size) Hr).
      rewrite option_guard_True by exact Hr. simpl.
      destruct (POST req !! "page_index") as [raw_page|]; simpl.
      * destruct (int_literal cfg raw_page); simpl; split; intros H;
          inversion H; reflexivity.
      * split; intros H; inversion H; reflexivity.
    + rewrite option_guard_False by exact Hr. simpl.
      destruct (negb _) eqn:Ht; [split; discriminate|].
      apply in_range_test in Ht. contradiction.
  - split; intros H; inversion H; reflexivity.
Qed.

(** Every exception [_process_pagination_values] raises is a
    [ValueError]. *)
Lemma pagination_raises_ValueError (e : exn) :
  _process_pagination_values cfg req = Raise e → is_ValueError e = true.
Proof.
  unfold _process_pagination_values.
  destruct (POST req !! "page_size") as [raw_size|]; [|discriminate].
  destruct (py_int cfg raw_size) as [size|e1] eqn:Hs.
  - destruct (negb _).
    + intros H; inversion H; reflexivity.
    + destruct (POST req !! "page_index") as [raw_page|]; [|discriminate].
      destruct (py_int cfg raw_page) as [page|e2] eqn:Hp; [discriminate|].
      intros H; inversion H; subst. apply (py_int_Raise _ _ Hp).
  - intros H; inversion H; subst. apply (py_int_Raise _ _ Hs).
Qed.

(** When [page_size] is present, the three ways a request is rejected. *)
Lemma pagination_rejects_iff (raw_size : string) :
  POST req !! "page_size" = Some raw_size →
  (∃ e, _process_pagination_values cfg req = Raise e)
  ↔ (int_literal cfg raw_size = None
     ∨ (∃ n, int_literal cfg raw_size = Some n
             ∧ ¬ 0 < n ≤ max_page_size cfg)
     ∨ (valid_page_size cfg raw_size
        ∧ ∃ raw_page, POST req !! "page_index" = Some raw_page
                      ∧ int_literal cfg raw_page = None)).
Proof.
  intros Hs. unfold _process_pagination_values, py_int, valid_page_size.
  rewrite Hs.
  destruct (int_literal cfg raw_size) as [size|].
  - destruct (decide (0 < size ≤ max_page_size cfg)) as [Hr|Hr].
    + rewrite (proj2 (in_range_test size) Hr).
      destruct (POST req !! "page_index") as [raw_page|].
      * destruct (int_literal cfg raw_page) eqn:Hp.
        -- split; [intros [e H]; discriminate|].
           intros [H|[(n & Hn & Hbad)|(_ & p & Hp' & Hnone)]].
           ++ discriminate.
           ++ inversion Hn; subst. contradiction.
           ++ inversion Hp'; subst. congruence.
        -- split; [|eauto]. intros _. right. right. eauto 8.
      * split; [intros [e H]; discriminate|].
        intros [H|[(n & Hn & Hbad)|(_ & p & Hp' & _)]]; try discriminate.
        inversion Hn; subst. contradiction.
    + destruct (negb _) eqn:Ht.
      * split; [|eauto]. intros _. right. left. eauto.
      * apply in_range_test in Ht. contradiction.
  - split; [|eauto]. intros _. left. reflexivity.
Qed.
End Pagination.

Lemma format_page_size (v : string) :
  format_field (ugettext "Invalid page size of {page_size}") "page_size" v
  = "Invalid page size of " +:+ v.
Proof.
  assert (Hnil : ∀ s : string, s +:+ "" = s).
  { induction s as [|a s IH]; [reflexivity|].
    change (String a (s +:+ "") = String a s). f_equal. exact IH. }
  rewrite <- (Hnil v) at 2. vm_compute. reflexivity.
Qed.

(** C2: [_process_pagination_values] agrees with the reference definition on
    every accepted request; without a [page_size] key it returns
    [(20, 0, 0)] whatever else the request holds, and with a [page_size] that
    parses to an integer in [[1, max_page_size]] it returns that size, the
    parsed [page_index] (0 when absent) and the offset [page_index * size]. *)
Theorem pagination_matches_reference (cfg : settings) (req : request) :
  (∀ r, _process_pagination_values cfg req = Ret r
        ↔ normalize_pagination (int_literal cfg) (POST req)
            (max_page_size cfg) = Some r)
  ∧ (POST req !! "page_size" = None →
     _process_pagination_values cfg req = Ret (20, 0, 0))
  ∧ (∀ raw_size size,
       POST req !! "page_size" = Some raw_size →
       int_literal cfg raw_size = Some size →
       1 ≤ size ≤ max_page_size cfg →
       match POST req !! "page_index" with
       | None => _process_pagination_values cfg req = Ret (size, 0, 0)
       | Some raw_page =>
           ∀ page, int_literal cfg raw_page = Some page →
                   _process_pagination_values cfg req
                   = Ret (size, page * size, page)
       end).
Proof.
  split; [apply pagination_refines|].
  split; [apply pagination_default|].
  intros raw_size size Hs Hn Hr.
  destruct (POST req !! "page_index") as [raw_page|] eqn:Hp.
  - intros page Hk.
    apply (pagination_size_and_index cfg req raw_size raw_page); auto; lia.
  - apply (pagination_size_only cfg req raw_size); auto; lia.
Qed.

Lemma pagination_matches_reference_witness :
  _process_pagination_values default_settings no_page_size_request
  = Ret (20, 0, 0)
  ∧ _process_pagination_values default_settings robotics_request
    = Ret (10, 20, 2).
Proof.
  split.
  - apply (proj1 (proj2 (pagination_matches_reference
                           default_settings no_page_size_request))).
    reflexivity.
  - assert (Hr : 1 ≤ 10 ≤ max_page_size default_settings)
      by (vm_compute; split; discriminate).
    exact (proj2 (proj2 (pagination_matches_reference
                           default_settings robotics_request))
             "10" 10 eq_refl eq_refl Hr 2 eq_refl).
Defined.

(** C3 as stated fails: with a valid [page_size] a [ValueError] is still
    raised when [page_index] is not numeric. *)
Lemma page_size_alone_does_not_decide_rejection :
  ¬ (∀ raw_size,
       POST bad_index_request !! "page_size" = Some raw_size →
       (∃ msg, _process_pagination_values default_settings bad_index_request
               = Raise (ValueError msg))
       ↔ (int_literal default_settings raw_size = None
          ∨ ∃ n, int_literal default_settings raw_size = Some n
                 ∧ ¬ 0 < n ≤ max_page_size default_settings)).
Proof.
  intros H. destruct (H "10" eq_refl) as [Hraise _].
  destruct Hraise as [Hnone|(n & Hn & Hbad)].
  - eexists. vm_compute. reflexivity.
  - vm_compute in Hnone. discriminate.
  - vm_compute in Hn. inversion Hn; subst. apply Hbad. vm_compute.
    split; [reflexivity|discriminate].
Qed.

(** C3 (amended): when the [page_size] key is present,
    [_process_pagination_values] raises, and then always a [ValueError], if
    and only if the [page_size] value is not numeric, or its integer value
    lies outside [(0, max_page_size]], or [page_size] is valid and a
    [page_index] key is present with a value that is not numeric; a
    [page_size] of 0 or less, or above the maximum, is rejected with the
    message "Invalid page size of n" whatever the other fields are. *)
Theorem pagination_rejection (cfg : settings) (req : request)
    (raw_size : string) :
  POST req !! "page_size" = Some raw_size →
  ((∃ msg, _process_pagination_values cfg req = Raise (ValueError msg))
   ↔ (int_literal cfg raw_size = None
      ∨ (∃ n, int_literal cfg raw_size = Some n
              ∧ ¬ 0 < n ≤ max_page_size cfg)
      ∨ (valid_page_size cfg raw_size
         ∧ ∃ raw_page, POST req !! "page_index" = Some raw_page
                       ∧ int_literal cfg raw_page = None)))
  ∧ (∀ e, _process_pagination_values cfg req = Raise e →
          is_ValueError e = true)
  ∧ (∀ n, int_literal cfg raw_size = Some n →
          n ≤ 0 ∨ max_page_size cfg < n →
          _process_pagination_values cfg req
          = Raise (ValueError ("Invalid page size of " +:+ str_of_int n))).
Proof.
  intros Hs. split; [|split].
  - rewrite <- (pagination_rejects_iff cfg req raw_size Hs). split.
    + intros [msg H]. eauto.
    + intros [e H]. pose proof (pagination_raises_ValueError _ _ _ H) as Hv.
      destruct e; try discriminate. eauto.
  - apply pagination_raises_ValueError.
  - intros n Hn Hbad. unfold _process_pagination_values.
    rewrite Hs. apply py_int_Ret in Hn. rewrite Hn.
    destruct (negb _) eqn:Ht.
    + rewrite format_page_size. reflexivity.
    + apply in_range_test in Ht. lia.
Qed.

Lemma pagination_rejection_witness :
  _process_pagination_values default_settings zero_page_size_request
  = Raise (ValueError "Invalid page size of 0").
Proof.
  apply (proj2 (proj2 (pagination_rejection
                         default_settings zero_page_size_request "0" eq_refl))
           0 eq_refl).
  left. discriminate.
Defined.

(** C9 as stated fails: a negative [page_index] is accepted and returned. *)
Lemma negative_page_index_accepted :
  ¬ (∀ size from_ page,
       _process_pagination_values default_settings negative_index_request
       = Ret (size, from_, page) →
       0 ≤ page).
Proof.
  intros H. specialize (H 10 (-20) (-2) eq_refl). lia.
Qed.

(** C9 (amended): on every accepted request the [page_index] returned is 0
    when [page_size] or [page_index] is absent and otherwise exactly the
    integer parsed from [page_index], negative values included, with the
    offset [page_index * size]; neither a lower nor an upper bound is
    enforced: with a valid [page_size], whatever integer [page_index] parses
    to, of either sign and of any size, the request is accepted and that
    integer is returned. *)
Theorem page_index_is_passed_through (cfg : settings) :
  (∀ req size from_ page,
     _process_pagination_values cfg req = Ret (size, from_, page) →
     match POST req !! "page_size", POST req !! "page_index" with
     | Some _, Some raw_page =>
         int_literal cfg raw_page = Some page ∧ from_ = page * size
     | _, _ => page = 0 ∧ from_ = 0
     end)
  ∧ (∀ req raw_size raw_page size page,
       POST req !! "page_size" = Some raw_size →
       valid_page_size cfg raw_size →
       int_literal cfg raw_size = Some size →
       POST req !! "page_index" = Some raw_page →
       int_literal cfg raw_page = Some page →
       _process_pagination_values cfg req = Ret (size, page * size, page)).
Proof.
  split.
  - intros req size from_ page.
    unfold _process_pagination_values, py_int.
    destruct (POST req !! "page_size") as [raw_size|].
    + destruct (int_literal cfg raw_size) as [n|]; [|discriminate].
      destruct (negb _); [discriminate|].
      destruct (POST req !! "page_index") as [raw_page|].
      * destruct (int_literal cfg raw_page) as [k|]; [|discriminate].
        intros H; inversion H; subst. split; reflexivity.
      * intros H; inversion H; subst. split; reflexivity.
    + intros H; inversion H; subst.
      destruct (POST req !! "page_index"); split; reflexivity.
  - intros req raw_size raw_page size page Hs (n & Hn & Hr) Hsize Hp Hpage.
    rewrite Hn in Hsize. inversion Hsize; subst n.
    apply (pagination_size_and_index cfg req raw_size raw_page);
      assumption.
Qed.

Lemma page_index_is_passed_through_witness :
  (int_literal default_settings "-2" = Some (-2) ∧ -20 = -2 * 10)
  ∧ _process_pagination_values default_settings (page_request 1000000)
    = Ret (1, 1000000 * 1, 1000000).
Proof.
  split.
  - exact (proj1 (page_index_is_passed_through default_settings)
             negative_index_request 10 (-20) (-2) eq_refl).
  - apply (proj2 (page_index_is_passed_through default_settings)
             (page_request 1000000) "1" "1000000").
    + reflexivity.
    + exists 1. split; [reflexivity|]. vm_compute.
      split; [reflexivity|discriminate].
    + reflexivity.
    + vm_compute. reflexivity.
    + reflexivity.
Defined.

(** ** Filter extraction *)

(** C4: the dictionary built by [_process_field_values] has as keys exactly
    the keys of the request that are in the collaborator's list of filter
    fields, each with the value the request gives it; other keys are left out
    and nothing is raised for them. *)
Theorem field_values_are_the_allowed_inputs (env : collaborators)
    (req : request) :
  dom (_process_field_values env req)
  = dom (POST req) ∩ list_to_set (course_discovery_filter_fields env)
  ∧ ∀ key, _process_field_values env req !! key
           = if bool_decide (key ∈ course_discovery_filter_fields env)
             then POST req !! key else None.
Proof.
  assert (Hlookup : ∀ key, _process_field_values env req !! key
           = if bool_decide (key ∈ course_discovery_filter_fields env)
             then POST req !! key else None).
  { intros key. unfold _process_field_values.
    rewrite map_lookup_filter.
    destruct (POST req !! key) as [v|]; cbn.
    - case_bool_decide as Hin.
      + rewrite option_guard_True by exact Hin. reflexivity.
      + rewrite option_guard_False by exact Hin. reflexivity.
    - case_bool_decide; reflexivity. }
  split; [|exact Hlookup].
  apply set_eq. intros key.
  rewrite elem_of_intersection, !elem_of_dom, elem_of_list_to_set, Hlookup.
  case_bool_decide as Hin.
  - tauto.
  - split; [intros [v Hv]; discriminate|tauto].
Qed.

(** ** The display-order block *)

Ltac unfold_view :=
  unfold run, do_search, course_discovery, respond,
    handle_error, log_debug, log_exception, try_except, call, lift, raise,
    get_results, get_status_code, set_results, set_status_code, entry_frame,
    mbind, M_bind, mret, M_ret;
  cbn [calls results status_code fst snd app].

Ltac unfold_step :=
  unfold annotate_facet, set_facet_field, call, lift, raise,
    get_results, get_status_code, set_results, set_status_code,
    mbind, M_bind, mret, M_ret;
  cbn [calls results status_code fst snd].

Section Taxoman.
Context (env : collaborators).

Lemma extends_refl (fr : frame) : extends fr fr.
Proof. split; [reflexivity|]. exists []. rewrite app_nil_r. auto. Qed.

Lemma extends_trans (fr1 fr2 fr3 : frame) :
  extends fr1 fr2 → extends fr2 fr3 → extends fr1 fr3.
Proof.
  intros [Hs1 (x1 & Hc1 & Hx1)] [Hs2 (x2 & Hc2 & Hx2)]. split.
  - congruence.
  - exists (x1 ++ x2). rewrite Hc2, Hc1, app_assoc. split; [reflexivity|].
    apply Forall_app. auto.
Qed.

Lemma annotate_facet_extends (entry : string * pyval) (fr : frame) :
  extends fr (annotate_facet env entry fr).2.
Proof.
  destruct fr as [tr res code]. unfold_step.
  repeat case_match; simplify_eq/=;
    first [ apply extends_refl
          | split; [reflexivity|]; cbn;
            first [ exists []; rewrite app_nil_r; split; [reflexivity|constructor]
                  | eexists [_]; split; [reflexivity|];
                    repeat constructor ] ].
Qed.

Lemma for_each_extends (l : list (string * pyval)) :
  ∀ fr, extends fr (for_each l (annotate_facet env) fr).2.
Proof.
  induction l as [|entry l IH]; intros fr.
  - apply extends_refl.
  - cbn [for_each]. unfold mbind, M_bind.
    pose proof (annotate_facet_extends entry fr) as Hstep.
    destruct (annotate_facet env entry fr) as [[[]|e] fr1]; cbn in *.
    + eapply extends_trans; [exact Hstep|apply IH].
    + exact Hstep.
Qed.

Lemma taxoman_block_extends (cfg : settings) (fr : frame) :
  extends fr (taxoman_block cfg env fr).2.
Proof.
  unfold taxoman_block. destruct (taxoman_enabled cfg).
  - unfold mbind, M_bind, call.
    destruct (get_facet_slugs_display_order env) as [order|e]; cbn.
    + eapply extends_trans; [|apply for_each_extends].
      split; [reflexivity|]. eexists [_]. split; [reflexivity|].
      repeat constructor.
    + split; [reflexivity|]. eexists [_]. split; [reflexivity|].
      repeat constructor.
  - apply extends_refl.
Qed.

Lemma taxoman_block_disabled (cfg : settings) (fr : frame) :
  taxoman_enabled cfg = false → taxoman_block cfg env fr = (Ret tt, fr).
Proof.
  unfold taxoman_block, taxoman_enabled. intros ->. reflexivity.
Qed.

Lemma emitted_app (tr1 tr2 : list event) :
  emitted (tr1 ++ tr2) = emitted tr1 ++ emitted tr2.
Proof. apply omap_app. Qed.

Lemma emitted_taxoman (extra : list event) :
  Forall (λ ev, is_taxoman_call ev = true) extra → emitted extra = [].
Proof.
  induction 1 as [|ev extra Hev _ IH]; [reflexivity|].
  destruct ev; try discriminate; exact IH.
Qed.

Lemma search_calls_taxoman (extra : list event) :
  Forall (λ ev, is_taxoman_call ev = true) extra → search_calls extra = [].
Proof.
  induction 1 as [|ev extra Hev _ IH]; [reflexivity|].
  destruct ev; try discriminate; exact IH.
Qed.

(** The block emits no analytics event and makes no search call. *)
Lemma extends_observations (fr fr' : frame) :
  extends fr fr' →
  status_code fr' = status_code fr
  ∧ emitted (calls fr') = emitted (calls fr)
  ∧ search_calls (calls fr') = search_calls (calls fr)
  ∧ ∀ ev, ev ∈ calls fr → ev ∈ calls fr'.
Proof.
  intros [Hs (extra & Hc & Hx)]. rewrite Hc. split; [exact Hs|].
  split; [|split].
  - rewrite emitted_app, (emitted_taxoman extra Hx). apply app_nil_r.
  - unfold search_calls. rewrite List.filter_app.
    fold (search_calls extra). rewrite (search_calls_taxoman extra Hx).
    apply app_nil_r.
  - intros ev Hin. apply elem_of_app. left. exact Hin.
Qed.

(** One turn of the loop, seen on [results]. *)
Lemma annotate_facet_results (slug : string) (display_order : pyval)
    (fr fr' : frame) :
  annotate_facet env (slug, display_order) fr = (Ret tt, fr') →
  ∃ rd facets facets1,
    results fr = PDict rd
    ∧ rd !! "facets" = Some (PDict facets)
    ∧ results fr' = PDict (<["facets" := PDict facets1]> rd)
    ∧ match facets !! slug with
      | None => facets1 = facets
      | Some facet =>
          ∃ fields fv,
            facet = PDict fields
            ∧ get_facet_values_display_order env slug = Ret fv
            ∧ facets1
              = <[slug := PDict (<["facet_values" := fv]>
                                   (<["display_order" := display_order]>
                                      fields))]> facets
      end.
Proof.
  destruct fr as [tr res code]. unfold_step. unfold py_getitem. cbn.
  destruct res as [| | | | |rd]; try discriminate.
  destruct (rd !! "facets") as [fv0|] eqn:Hf; [|discriminate].
  unfold py_has_key.
  destruct fv0 as [| | | | |facets]; try discriminate.
  cbn.
  destruct (facets !! slug) as [facet|] eqn:Hs; cbn.
  - rewrite Hf, Hs. unfold py_setitem.
    destruct facet as [| | | | |fields]; try discriminate. cbn.
    destruct (get_facet_values_display_order env slug) as [fv|e] eqn:Hfv;
      [|discriminate].
    cbn. rewrite ?lookup_insert_eq. cbn. rewrite ?lookup_insert_eq. cbn.
    intros H; inversion H; subst; clear H. cbn.
    exists rd, facets. eexists. split; [reflexivity|].
    split; [exact Hf|]. split.
    + rewrite !insert_insert_eq. reflexivity.
    + rewrite Hs. exists fields, fv. auto.
  - intros H; inversion H; subst; clear H. cbn.
    exists rd, facets, facets. split; [reflexivity|].
    split; [exact Hf|]. split.
    + rewrite insert_id by exact Hf. reflexivity.
    + rewrite Hs. reflexivity.
Qed.
End Taxoman.

Section FacetAnnotation.
Context (env : collaborators).

(** With no display order at all every facet is kept. *)
Lemma facet_annotated_empty (facets : gmap string pyval) (slug : string) :
  facet_annotated env ∅ facets facets slug.
Proof.
  unfold facet_annotated. destruct (facets !! slug); [|reflexivity].
  rewrite lookup_empty. reflexivity.
Qed.

(** Annotating [slug] first and the slugs of [order] afterwards is
    annotating the slugs of [<[slug := d]> order]. *)
Lemma facet_annotated_insert (order facets facets1 facets' : gmap string pyval)
    (slug : string) (d : pyval) :
  order !! slug = None →
  match facets !! slug with
  | None => facets1 = facets
  | Some facet =>
      ∃ fields fv,
        facet = PDict fields
        ∧ get_facet_values_display_order env slug = Ret fv
        ∧ facets1
          = <[slug := PDict (<["facet_values" := fv]>
                               (<["display_order" := d]> fields))]> facets
  end →
  (∀ s, facet_annotated env order facets1 facets' s) →
  ∀ s, facet_annotated env (<[slug := d]> order) facets facets' s.
Proof.
  intros Hfresh Hstep Hrest s. specialize (Hrest s).
  unfold facet_annotated in *.
  destruct (decide (s = slug)) as [->|Hne].
  - rewrite lookup_insert_eq. rewrite Hfresh in Hrest.
    destruct (facets !! slug) as [facet|] eqn:Hs.
    + destruct Hstep as (fields & fv & -> & Hfv & ->).
      rewrite lookup_insert_eq in Hrest. eauto.
    + subst facets1. rewrite Hs in Hrest. exact Hrest.
  - rewrite lookup_insert_ne by congruence.
    assert (facets1 !! s = facets !! s) as Hsame.
    { destruct (facets !! slug) as [facet|].
      - destruct Hstep as (fields & fv & _ & _ & ->).
        apply lookup_insert_ne. congruence.
      - subst. reflexivity. }
    rewrite Hsame in Hrest. exact Hrest.
Qed.

(** The loop over the display orders, for any order of iteration. *)
Lemma for_each_annotates (l : list (string * pyval)) :
  NoDup l.*1 →
  ∀ fr fr',
    for_each l (annotate_facet env) fr = (Ret tt, fr') →
    results_annotated env (list_to_map l) (results fr) (results fr').
Proof.
  induction l as [|[slug d] l IH]; intros Hnodup fr fr' Hrun.
  - left. inversion Hrun; subst. split; reflexivity.
  - cbn in Hnodup. apply NoDup_cons in Hnodup as [Hfresh Hnodup].
    cbn [for_each] in Hrun. unfold mbind, M_bind in Hrun.
    destruct (annotate_facet env (slug, d) fr) as [[[]|e] fr1] eqn:Hstep;
      [|discriminate].
    apply annotate_facet_results in Hstep
      as (rd & facets & facets1 & Hr & Hf & Hr1 & Hstep).
    specialize (IH Hnodup fr1 fr' Hrun).
    right. exists rd, facets.
    assert (list_to_map (M := gmap string pyval) l !! slug = None)
      as Hnone by (apply not_elem_of_list_to_map_1; exact Hfresh).
    destruct IH as [[Hempty ->]|(rd1 & f1 & facets' & Hr1' & Hf1 & -> & Hall)].
    + exists facets1. split; [exact Hr|]. split; [exact Hf|].
      split; [exact Hr1|]. cbn [list_to_map foldr curry].
      apply (facet_annotated_insert _ _ facets1); auto.
      intros s. fold (list_to_map (M := gmap string pyval) l).
      rewrite Hempty. apply facet_annotated_empty.
    + exists facets'. rewrite Hr1 in Hr1'. inversion Hr1'; subst rd1.
      rewrite lookup_insert_eq in Hf1. inversion Hf1; subst f1.
      split; [exact Hr|]. split; [exact Hf|].
      split; [rewrite insert_insert_eq; reflexivity|].
      cbn [list_to_map foldr curry].
      apply (facet_annotated_insert _ _ facets1); auto.
Qed.

(** The block as a whole, when the feature is enabled and it completes. *)
Lemma taxoman_block_annotates (cfg : settings) (fr fr' : frame) :
  taxoman_enabled cfg = true →
  taxoman_block cfg env fr = (Ret tt, fr') →
  ∃ order, get_facet_slugs_display_order env = Ret order
           ∧ results_annotated env order (results fr) (results fr').
Proof.
  unfold taxoman_block, taxoman_enabled. intros -> Hrun.
  unfold mbind, M_bind, call in Hrun.
  destruct (get_facet_slugs_display_order env) as [order|e]; [|discriminate].
  exists order. split; [reflexivity|].
  apply for_each_annotates in Hrun; [|apply NoDup_fst_map_to_list].
  rewrite list_to_map_to_list in Hrun. exact Hrun.
Qed.
End FacetAnnotation.

Section Completion.
Context (env : collaborators).

Lemma annotate_facet_completes (slug : string) (d : pyval) (fr : frame)
    (rd facets : gmap string pyval) :
  results fr = PDict rd →
  rd !! "facets" = Some (PDict facets) →
  annotatable env [(slug, d)] facets →
  ∃ fr', annotate_facet env (slug, d) fr = (Ret tt, fr').
Proof.
  destruct fr as [tr res code]. cbn. intros -> Hf Hok.
  specialize (Hok slug d (list_elem_of_here _ _)).
  unfold_step. unfold py_getitem, py_has_key. cbn. rewrite Hf. cbn.
  destruct (facets !! slug) as [facet|] eqn:Hs; cbn.
  - destruct Hok as [[fields ->] [fv Hfv]]. rewrite Hf, Hs. cbn.
    rewrite Hfv. cbn. rewrite ?lookup_insert_eq. cbn.
    rewrite ?lookup_insert_eq. cbn. eauto.
  - eauto.
Qed.

(** On such facets the loop runs to its end. *)
Lemma for_each_completes (l : list (string * pyval)) :
  ∀ fr rd facets,
    results fr = PDict rd →
    rd !! "facets" = Some (PDict facets) →
    annotatable env l facets →
    ∃ fr', for_each l (annotate_facet env) fr = (Ret tt, fr').
Proof.
  induction l as [|[slug d] l IH]; intros fr rd facets Hr Hf Hok.
  - exists fr. reflexivity.
  - destruct (annotate_facet_completes slug d fr rd facets Hr Hf)
      as [fr1 Hstep].
    { intros s d' Hin. apply (Hok s d').
      apply list_elem_of_singleton in Hin. rewrite Hin.
      apply list_elem_of_here. }
    cbn [for_each]. unfold mbind, M_bind. rewrite Hstep.
    apply annotate_facet_results in Hstep
      as (rd0 & facets0 & facets1 & Hr0 & Hf0 & Hr1 & Hshape).
    rewrite Hr in Hr0. inversion Hr0; subst rd0.
    rewrite Hf in Hf0. inversion Hf0; subst facets0.
    apply (IH fr1 _ facets1 Hr1); [apply lookup_insert_eq|].
    intros s d' Hin.
    pose proof (Hok s d' (list_elem_of_further _ _ _ Hin)) as Hs.
    destruct (facets !! slug) as [facet|] eqn:Hslug.
    + destruct Hshape as (fields & fv & -> & Hfv & ->).
      destruct (decide (s = slug)) as [->|Hne].
      * rewrite lookup_insert_eq. split; eauto.
      * rewrite lookup_insert_ne by congruence. exact Hs.
    + subst facets1. exact Hs.
Qed.
End Completion.

(** ** The two views *)

(** Who answered a search call found among the calls of a run. *)
Ltac find_search_call H :=
  let ev := fresh "ev" in
  let Hin := fresh "Hin" in
  let Hout := fresh "Hout" in
  destruct H as (ev & Hin & Hout);
  cbn [calls snd] in Hin;
  repeat (apply elem_of_cons in Hin as [->|Hin]; [try discriminate Hout|]);
  try (apply elem_of_nil in Hin; contradiction);
  cbn [search_outcome] in Hout.

(** Two facts about the outcome of one call are one fact. *)
Ltac same_outcome :=
  repeat match goal with
    | H1 : ?x = Ret _, H2 : ?x = _ |- _ => rewrite H1 in H2; simplify_eq/=
    | H1 : ?x = Raise _, H2 : ?x = _ |- _ => rewrite H1 in H2; simplify_eq/=
    end.

Ltac run_view := unfold_view; repeat case_match; simplify_eq/=.

(** C5 as stated fails: the search environment is set up before the [try]
    statement, so when the set-up raises, a [do_search] request without a
    search string gets no response at all, the exception leaves the view. *)
Lemma empty_query_without_an_answer :
  POST no_term_request !! "search_string" = None
  ∧ (run (do_search default_settings setup_down no_term_request None)).1
    = Raise (OtherError "no search engine")
  ∧ ¬ (∃ resp,
         (run (do_search default_settings setup_down no_term_request None)).1
         = Ret resp).
Proof.
  split; [reflexivity|]. split; [vm_compute; reflexivity|].
  intros [resp Hresp]. vm_compute in Hresp. discriminate Hresp.
Qed.

(** C5 (amended): a [do_search] request without a search string, or with an
    empty one, never reaches [perform_search], and whenever the set-up of
    the search environment returns it is answered with status 500 and the
    body [{"error": "No search term provided for search"}]. *)
Theorem empty_query_is_rejected (cfg : settings) (env : collaborators)
    (req : request) (course_id : option string) :
  POST req !! "search_string" = None ∨ POST req !! "search_string" = Some "" →
  search_calls (calls (run (do_search cfg env req course_id)).2) = []
  ∧ (set_search_enviroment env req course_id = Ret tt →
     (run (do_search cfg env req course_id)).1
     = Ret {| content := error_body "No search term provided for search";
              content_type := "application/json";
              status := 500 |}).
Proof.
  intros Habsent.
  assert (truthy (POST req !! "search_string") = false) as Hterm
    by (destruct Habsent as [-> | ->]; reflexivity).
  unfold_view. rewrite Hterm. cbn.
  destruct (set_search_enviroment env req course_id) as [[]|e]; cbn.
  - split; [reflexivity|]. intros _. reflexivity.
  - split; [reflexivity|]. discriminate.
Qed.

Lemma empty_query_is_rejected_witness :
  search_calls
    (calls (run (do_search default_settings healthy no_term_request None)).2)
  = []
  ∧ (run (do_search default_settings healthy no_term_request None)).1
    = Ret {| content := error_body "No search term provided for search";
             content_type := "application/json";
             status := 500 |}.
Proof.
  pose proof (empty_query_is_rejected
                default_settings healthy no_term_request None
                (or_introl eq_refl))
    as [Hcalls Hresp].
  split; [exact Hcalls|exact (Hresp eq_refl)].
Defined.

Section Observations.
Context (env : collaborators).


Lemma search_raised_extends (fr fr' : frame) (e : exn) :
  extends fr fr' →
  search_raised env (calls fr') e → search_raised env (calls fr) e.
Proof.
  intros [_ (extra & -> & Hx)] (ev & Hin & Hout).
  apply elem_of_app in Hin as [Hin|Hin]; [exists ev; auto|].
  rewrite Forall_forall in Hx. specialize (Hx ev Hin).
  destruct ev; discriminate.
Qed.
End Observations.

(** The frame the display-order block leaves, related to the one it got. *)
Ltac after_taxoman :=
  match goal with
  | H : taxoman_block ?cfg ?env ?fr = (_, ?fr') |- _ =>
      let Hext := fresh "Hext" in
      pose proof (taxoman_block_extends env cfg fr) as Hext;
      rewrite H in Hext; cbn [snd] in Hext;
      let Hst := fresh "Hst" in
      let Hem := fresh "Hem" in
      let Hsc := fresh "Hsc" in
      pose proof (extends_observations fr fr' Hext) as (Hst & Hem & Hsc & _);
      cbn [calls status_code] in Hst, Hem, Hsc
  end.

Section Success.
Context (cfg : settings) (env : collaborators) (req : request).


End Success.




Section Failure.
Context (cfg : settings) (env : collaborators) (req : request).

(** A failure of [perform_search] that is not a [ValueError] is answered by
    [do_search] with the message built from the search term alone. *)
Lemma do_search_failure (course_id : option string) (e : exn) :
  search_raised env (calls (run (do_search cfg env req course_id)).2) e →
  is_ValueError e = false →
  (∃ size page,
     emitted (calls (run (do_search cfg env req course_id)).2)
     = [("edx.course.search.initiated",
         initiated_payload (POST req !! "search_string") size page)])
  ∧ (run (do_search cfg env req course_id)).1
    = Ret {| content := error_body
                          (generic_error_message
                             (POST req !! "search_string"));
             content_type := "application/json";
             status := 500 |}.
Proof.
  intros Hsearch Hclass. revert Hsearch.
  run_view; intros Hsearch; find_search_call Hsearch; simplify_eq/=;
    same_outcome; eauto.
Qed.

(** The same for [course_discovery_search], as far as the events go; the
    answer is the one of [do_search] when the display-order feature is
    disabled. *)
Lemma course_discovery_failure (e : exn) :
  search_raised env (calls (run (course_discovery cfg env req)).2) e →
  is_ValueError e = false →
  (∃ size page,
     emitted (calls (run (course_discovery cfg env req)).2)
     = [("edx.course_discovery.search.initiated",
         initiated_payload (POST req !! "search_string") size page)])
  ∧ (taxoman_enabled cfg = false →
     (run (course_discovery cfg env req)).1
     = Ret {| content := error_body
                           (generic_error_message
                              (POST req !! "search_string"));
              content_type := "application/json";
              status := 500 |}).
Proof.
  intros Hsearch Hclass. revert Hsearch.
  run_view; intros Hsearch; after_taxoman.
  all: match goal with
       | H : taxoman_block _ _ ?fr = (_, ?fr') |- _ =>
           apply (search_raised_extends env fr fr' e Hext) in Hsearch
       end.
  all: find_search_call Hsearch; simplify_eq/=; same_outcome.
  all: split; [eauto|].
  all: intros Hoff;
    match goal with
    | H : taxoman_block _ _ _ = _ |- _ =>
        rewrite (taxoman_block_disabled env cfg _ Hoff) in H;
        inversion H; subst; reflexivity
    end.
Qed.
End Failure.

Section Answers.
Context (cfg : settings) (env : collaborators) (req : request).

(** Once the search environment is set up, [do_search] always answers:
    nothing raised inside the [try] block leaves the view. *)
Lemma do_search_answers (course_id : option string) :
  set_search_enviroment env req course_id = Ret tt →
  ∃ resp,
    (run (do_search cfg env req course_id)).1 = Ret resp
    ∧ content_type resp = "application/json"
    ∧ (status resp = 200 ∨ status resp = 500)
    ∧ (status resp = 500 → ∃ msg, content resp = error_body msg).
Proof.
  intros Hinit. run_view; same_outcome;
    (eexists; split; [reflexivity|]; cbn;
     split; [reflexivity|]; split; [auto|]; intros; try discriminate;
     eauto).
Qed.

(** With the display-order feature disabled [course_discovery] always
    answers, with status 500 and an error body unless the whole [try]
    block went through. *)
Lemma course_discovery_answers :
  taxoman_enabled cfg = false →
  ∃ resp,
    (run (course_discovery cfg env req)).1 = Ret resp
    ∧ content_type resp = "application/json"
    ∧ (status resp = 200 ∨ status resp = 500)
    ∧ (status resp = 500 → ∃ msg, content resp = error_body msg).
Proof.
  intros Hoff. unfold_view.
  repeat first
    [ rewrite (taxoman_block_disabled env cfg _ Hoff)
    | progress cbn [calls results status_code fst snd]
    | case_match ];
    simplify_eq/=;
    (eexists; split; [reflexivity|]; cbn;
     split; [reflexivity|]; split; [auto|]; intros; try discriminate;
     eauto).
Qed.
End Answers.

(** C7 on the failing input: the display-order feature is enabled and the
    search engine is down; [course_discovery] builds the generic error body
    and then raises [KeyError('facets')] instead of answering. *)
Theorem discovery_failure_escapes_with_taxoman :
  run (course_discovery taxoman_settings search_down no_term_request)
  = (Raise (KeyError "facets"),
     {| calls :=
          [EvEmit "edx.course_discovery.search.initiated"
                  (initiated_payload None 10 2);
           EvDiscoverySearch None 10 20 ∅;
           EvLogException None (Some 7) (OtherError "connection refused");
           EvSlugsOrder];
        results := error_body (generic_error_message None);
        status_code := 500 |}).
Proof. vm_compute. reflexivity. Qed.

(** C1 on the failing inputs: a [course_discovery] request with
    [page_size = 0] and the display-order feature enabled ends in an
    uncaught [KeyError('facets')]; a [do_search] request whose
    results-displayed event the tracker refuses is answered with the error
    body and status 200. *)
Theorem errors_that_miss_the_500_answer :
  (run (course_discovery taxoman_settings healthy zero_page_size_request)).1
  = Raise (KeyError "facets")
  ∧ (run (do_search default_settings sink_down robotics_request None)).1
    = Ret {| content := error_body
                          (generic_error_message (Some "robotics"));
             content_type := "application/json";
             status := 200 |}.
Proof. split; vm_compute; reflexivity. Qed.

(** C10 as stated fails: the [do_search] request has no search string, so
    pagination is never parsed and the body carries the empty-query message;
    and with the display-order feature enabled [course_discovery] does not
    answer at all. *)
Lemma parse_error_is_not_always_the_answer :
  ¬ (∀ raw_page,
       POST bad_index_no_term_request !! "page_index" = Some raw_page →
       int_literal default_settings raw_page = None →
       ∃ e, py_int default_settings raw_page = Raise e
            ∧ (run (do_search default_settings healthy
                      bad_index_no_term_request None)).1
              = Ret {| content := error_body (unicode_exn e);
                       content_type := "application/json";
                       status := 500 |})
  ∧ ¬ (∃ resp, (run (course_discovery taxoman_settings healthy
                       bad_index_request)).1 = Ret resp).
Proof.
  split.
  - intros H. destruct (H "abc" eq_refl eq_refl) as (e & He & Hresp).
    vm_compute in He. inversion He; subst e. vm_compute in Hresp.
    discriminate Hresp.
  - intros [resp Hresp]. vm_compute in Hresp. discriminate Hresp.
Qed.

(** C10 (amended): with a valid [page_size] and a [page_index] that is not
    numeric, neither view calls the search collaborator; [do_search], given a
    non-empty search string and a search environment that is set up, and
    [course_discovery], with the display-order feature disabled, catch the
    [ValueError] of the integer parsing and answer with status 500 and the
    body [{"error": <message of the parse error>}], the message being the
    one [int] raised with, whatever its wording. *)
Theorem bad_page_index_is_reported (cfg : settings) (env : collaborators)
    (req : request) (raw_size raw_page : string) :
  POST req !! "page_size" = Some raw_size →
  valid_page_size cfg raw_size →
  POST req !! "page_index" = Some raw_page →
  int_literal cfg raw_page = None →
  (∀ course_id,
     search_calls (calls (run (do_search cfg env req course_id)).2) = []
     ∧ (truthy (POST req !! "search_string") = true →
        set_search_enviroment env req course_id = Ret tt →
        (run (do_search cfg env req course_id)).1
        = Ret {| content :=
                   error_body (int_message cfg raw_page);
                 content_type := "application/json";
                 status := 500 |}))
  ∧ search_calls (calls (run (course_discovery cfg env req)).2) = []
  ∧ (taxoman_enabled cfg = false →
     (run (course_discovery cfg env req)).1
     = Ret {| content :=
                error_body (int_message cfg raw_page);
              content_type := "application/json";
              status := 500 |}).
Proof.
  intros Hs (n & Hn & Hr) Hp Hbad.
  assert (_process_pagination_values cfg req
          = Raise (ValueError (int_message cfg raw_page))) as Hpag.
  { unfold _process_pagination_values. rewrite Hs.
    apply py_int_Ret in Hn. rewrite Hn.
    rewrite (proj2 (in_range_test cfg n) Hr), Hp.
    unfold py_int. rewrite Hbad. reflexivity. }
  split; [|split].
  - intros course_id. unfold_view. rewrite Hpag.
    destruct (set_search_enviroment env req course_id) as [[]|e];
      destruct (truthy (POST req !! "search_string")); cbn;
      split; try reflexivity; try discriminate; intros _ _; reflexivity.
  - unfold_view. rewrite Hpag. cbn.
    match goal with
    | |- context [taxoman_block cfg env ?fr] =>
        destruct (extends_observations _ _ (taxoman_block_extends env cfg fr))
          as (_ & _ & Hsc & _);
        destruct (taxoman_block cfg env fr) as [[[]|e] fr']
    end; exact Hsc.
  - intros Hoff. unfold_view. rewrite Hpag. cbn.
    rewrite (taxoman_block_disabled env cfg _ Hoff). reflexivity.
Qed.

Lemma bad_page_index_is_reported_witness :
  (run (do_search default_settings healthy bad_index_request None)).1
  = Ret {| content :=
             error_body "invalid literal for int() with base 10: 'abc'";
           content_type := "application/json";
           status := 500 |}
  ∧ (run (course_discovery default_settings healthy bad_index_request)).1
    = Ret {| content :=
               error_body "invalid literal for int() with base 10: 'abc'";
             content_type := "application/json";
             status := 500 |}.
Proof.
  assert (valid_page_size default_settings "10") as Hvalid.
  { exists 10. split; [reflexivity|]. vm_compute. split; [reflexivity|].
    discriminate. }
  pose proof (bad_page_index_is_reported default_settings healthy
                bad_index_request "10" "abc" eq_refl Hvalid eq_refl eq_refl)
    as (Hdo & _ & Hdisc).
  split.
  - exact (proj2 (Hdo None) eq_refl eq_refl).
  - exact (Hdisc eq_refl).
Defined.

Section Annotation.
Context (cfg : settings) (env : collaborators) (req : request).

Lemma facet_annotated_dom (order facets facets' : gmap string pyval) :
  (∀ slug, facet_annotated env order facets facets' slug) →
  dom facets' = dom facets.
Proof.
  intros Hall. apply set_eq. intros slug. rewrite !elem_of_dom.
  specialize (Hall slug). unfold facet_annotated in Hall.
  destruct (facets !! slug) as [facet|].
  - destruct (order !! slug).
    + destruct Hall as (fields & fv & _ & _ & ->). split; eauto.
    + rewrite Hall. reflexivity.
  - rewrite Hall. reflexivity.
Qed.

(** A run of [course_discovery] that ends with status 200 went through
    the whole [try] block, and the display-order block then completed. *)
Lemma course_discovery_status_200 (resp : HttpResponse) (fr : frame) :
  run (course_discovery cfg env req) = (Ret resp, fr) →
  status resp = 200 →
  ∃ r fr1,
    search_returned env (calls fr1) r
    ∧ results fr1 = r
    ∧ taxoman_block cfg env fr1 = (Ret tt, fr)
    ∧ content resp = results fr.
Proof.
  run_view; intros Hrun Hst; simplify_eq/=; after_taxoman;
    try discriminate.
  all: try congruence.
  repeat match goal with u : unit |- _ => destruct u end.
  eexists _, _. split; [|split; [reflexivity|split; [eassumption|reflexivity]]].
  eexists. split.
  - cbn. apply list_elem_of_In. right. left. reflexivity.
  - cbn. f_equal. eassumption.
Qed.
End Annotation.

(** C8: when [course_discovery] answers with status 200 and the
    display-order feature is enabled, the answer is the search result in
    which every facet whose slug has a display order has gained
    [display_order] and has had [facet_values] replaced by the list the
    ordering collaborator gives for that slug, every other facet is as the
    search returned it, a slug known to the ordering collaborator only adds
    nothing, and the facets of the answer have exactly the slugs of the
    facets of the search result. *)
Theorem facets_are_annotated (cfg : settings) (env : collaborators)
    (req : request) (resp : HttpResponse) (fr : frame) :
  taxoman_enabled cfg = true →
  run (course_discovery cfg env req) = (Ret resp, fr) →
  status resp = 200 →
  ∃ r order,
    search_returned env (calls fr) r
    ∧ get_facet_slugs_display_order env = Ret order
    ∧ results_annotated env order r (content resp)
    ∧ ∀ facets,
        py_getitem r "facets" = Ret (PDict facets) →
        ∃ facets',
          py_getitem (content resp) "facets" = Ret (PDict facets')
          ∧ dom facets' = dom facets
          ∧ ∀ slug, facet_annotated env order facets facets' slug.
Proof.
  intros Hon Hrun Hst.
  destruct (course_discovery_status_200 cfg env req resp fr Hrun Hst)
    as (r & fr1 & Hsearch & Hr & Htax & Hcontent).
  destruct (taxoman_block_annotates env cfg fr1 fr Hon Htax)
    as (order & Horder & Hann).
  rewrite Hr, <- Hcontent in Hann.
  exists r, order. split; [|split; [exact Horder|split; [exact Hann|]]].
  - destruct Hsearch as (ev & Hin & Hout). exists ev. split; [|exact Hout].
    pose proof (taxoman_block_extends env cfg fr1) as Hext.
    rewrite Htax in Hext.
    apply (extends_observations _ _ Hext). exact Hin.
  - intros facets Hfacets.
    destruct Hann as [[Hempty ->]|(rd & f0 & facets' & -> & Hf0 & -> & Hall)].
    + exists facets. split; [exact Hfacets|]. split; [reflexivity|].
      intros slug. unfold facet_annotated.
      destruct (facets !! slug) as [facet|] eqn:Hs; [|reflexivity].
      destruct (order !! slug) eqn:Ho; [|reflexivity].
      rewrite Hempty, lookup_empty in Ho. discriminate Ho.
    + cbn in Hfacets. rewrite Hf0 in Hfacets. inversion Hfacets; subst f0.
      exists facets'. split; [cbn; rewrite lookup_insert_eq; reflexivity|].
      split; [exact (facet_annotated_dom env order facets facets' Hall)|].
      exact Hall.
Qed.

Lemma facets_are_annotated_witness :
  ∃ r order,
    search_returned healthy
      (calls (run (course_discovery taxoman_settings healthy
                     robotics_request)).2) r
    ∧ get_facet_slugs_display_order healthy = Ret order
    ∧ results_annotated healthy order r (content annotated_response)
    ∧ ∀ facets,
        py_getitem r "facets" = Ret (PDict facets) →
        ∃ facets',
          py_getitem (content annotated_response) "facets"
          = Ret (PDict facets')
          ∧ dom facets' = dom facets
          ∧ ∀ slug, facet_annotated healthy order facets facets' slug.
Proof.
  apply (facets_are_annotated taxoman_settings healthy robotics_request
           annotated_response).
  - reflexivity.
  - vm_compute. reflexivity.
  - reflexivity.
Defined.


(** * Further properties of the request normalisation *)



(** X2: raising the maximum page size never turns an accepted request into
    a rejected one, nor changes what is returned for it. *)
Theorem raising_the_limit_keeps_acceptance (cfg cfg' : settings)
    (req : request) (r : Z * Z * Z) :
  int_literal cfg' = int_literal cfg →
  max_page_size cfg ≤ max_page_size cfg' →
  _process_pagination_values cfg req = Ret r →
  _process_pagination_values cfg' req = Ret r.
Proof.
  intros Hint Hle. unfold _process_pagination_values, py_int.
  rewrite Hint.
  destruct (POST req !! "page_size") as [raw_size|]; [|auto].
  destruct (int_literal cfg raw_size) as [n|]; [|discriminate].
  destruct (negb ((0 <? n) && (n <=? max_page_size cfg))) eqn:Hrange;
    [discriminate|].
  apply in_range_test in Hrange.
  assert (0 < n ≤ max_page_size cfg') as Hrange' by lia.
  apply in_range_test in Hrange'. rewrite Hrange'.
  destruct (POST req !! "page_index") as [raw_page|]; [|auto].
  destruct (int_literal cfg raw_page); [auto|discriminate].
Qed.

Lemma raising_the_limit_keeps_acceptance_witness :
  _process_pagination_values large_limit_settings robotics_request
  = Ret (10, 20, 2).
Proof.
  apply (raising_the_limit_keeps_acceptance small_limit_settings
           large_limit_settings robotics_request).
  - reflexivity.
  - vm_compute. discriminate.
  - reflexivity.
Defined.

(** X3: filtering is idempotent and only ever removes keys: the dictionary
    built by [_process_field_values] is part of [request.POST], and passing
    it through [_process_field_values] again gives it back unchanged. *)
Theorem field_values_idempotent (env : collaborators) (req : request) :
  _process_field_values env req ⊆ POST req
  ∧ _process_field_values env (with_POST req (_process_field_values env req))
    = _process_field_values env req.
Proof.
  unfold _process_field_values, with_POST. cbn [POST]. split.
  - apply map_filter_subseteq.
  - apply map_eq. intros key. rewrite !map_lookup_filter.
    destruct (POST req !! key) as [v|]; cbn; [|reflexivity].
    destruct (decide (key ∈ course_discovery_filter_fields env)) as [Hin|Hin].
    + rewrite option_guard_True by exact Hin. cbn.
      rewrite option_guard_True by exact Hin. reflexivity.
    + rewrite option_guard_False by exact Hin. reflexivity.
Qed.

(** X4: only the members of the collaborator's list of filter fields matter,
    not their order or repetition, and a list with more members keeps at
    least the same entries of the request. *)
Theorem field_values_grow_with_the_allow_list (env env' : collaborators)
    (req : request) :
  (∀ key, key ∈ course_discovery_filter_fields env →
          key ∈ course_discovery_filter_fields env') →
  _process_field_values env req ⊆ _process_field_values env' req
  ∧ ((∀ key, key ∈ course_discovery_filter_fields env' →
             key ∈ course_discovery_filter_fields env) →
     _process_field_values env req = _process_field_values env' req).
Proof.
  intros Hsub.
  assert (Hlookup : ∀ (e : collaborators) key,
            _process_field_values e req !! key
            = if bool_decide (key ∈ course_discovery_filter_fields e)
              then POST req !! key else None).
  { intros e key. unfold _process_field_values. rewrite map_lookup_filter.
    destruct (POST req !! key) as [v|]; cbn.
    - case_bool_decide as Hin.
      + rewrite option_guard_True by exact Hin. reflexivity.
      + rewrite option_guard_False by exact Hin. reflexivity.
    - case_bool_decide; reflexivity. }
  split.
  - apply map_subseteq_spec. intros key v. rewrite !Hlookup.
    case_bool_decide as Hin; [|discriminate].
    rewrite bool_decide_true by auto. auto.
  - intros Hsup. apply map_eq. intros key. rewrite !Hlookup.
    rewrite (bool_decide_ext _ (key ∈ course_discovery_filter_fields env'))
      by (split; auto).
    reflexivity.
Qed.

Lemma field_values_grow_with_the_allow_list_witness :
  _process_field_values healthy filter_request
  = _process_field_values
      (with_filter_fields healthy ["modes"; "org"; "language"; "org"])
      filter_request.
Proof.
  apply (proj2 (field_values_grow_with_the_allow_list healthy
                  (with_filter_fields healthy
                     ["modes"; "org"; "language"; "org"])
                  filter_request
                  ltac:(cbn; intros key; rewrite !elem_of_cons; tauto))).
  cbn. intros key. rewrite !elem_of_cons. tauto.
Defined.

(** * Further properties of [do_search] *)

(** The entry of a list of calls that is the one looked for. *)
Ltac pick_call :=
  cbn; apply list_elem_of_In; cbn;
  repeat first [left; reflexivity | right].

(** The search call of the run and its answer, from the facts at hand. *)
Ltac show_search_call :=
  match goal with
  | H : perform_search ?env ?t ?u ?s ?f ?c = ?o |- _ =>
      exists (EvPerformSearch t u s f c);
      split; [pick_call|cbn; f_equal; exact H]
  | H : course_discovery_search ?env ?t ?s ?f ?d = ?o |- _ =>
      exists (EvDiscoverySearch t s f d);
      split; [pick_call|cbn; f_equal; exact H]
  end.

Lemma do_search_raises_iff (cfg : settings) (env : collaborators)
    (req : request) (course_id : option string) (e : exn) :
  (run (do_search cfg env req course_id)).1 = Raise e
  ↔ set_search_enviroment env req course_id = Raise e.
Proof.
  run_view; split; intros Hraise; simplify_eq/=; try reflexivity;
    try discriminate.
Qed.

Lemma do_search_status_200_iff (cfg : settings) (env : collaborators)
    (req : request) (course_id : option string) (resp : HttpResponse) :
  (run (do_search cfg env req course_id)).1 = Ret resp →
  (status resp = 200
   ↔ ∃ r, search_returned env
            (calls (run (do_search cfg env req course_id)).2) r).
Proof.
  run_view; intros Hresp; simplify_eq/=; (split; [intros Hst|intros [r Hs]]);
    try discriminate; try reflexivity.
  all: try (find_search_call Hs; simplify_eq/=; same_outcome; fail).
  all: eexists; show_search_call.
Qed.

Lemma do_search_content (cfg : settings) (env : collaborators)
    (req : request) (course_id : option string) (resp : HttpResponse) :
  (run (do_search cfg env req course_id)).1 = Ret resp →
  content_type resp = "application/json"
  ∧ (status resp = 200 ∨ status resp = 500)
  ∧ ((∃ r, search_returned env
             (calls (run (do_search cfg env req course_id)).2) r
           ∧ content resp = r)
     ∨ ∃ msg, content resp = error_body msg).
Proof.
  run_view; intros Hresp; simplify_eq/=;
    (split; [reflexivity|split; [auto|]]);
    first [ right; eexists; reflexivity
          | left; eexists; split; [show_search_call|reflexivity] ].
Qed.

(** X5: [do_search] raises exactly when setting up the search environment
    raises, and then the same exception; otherwise it answers in JSON with
    status 200 or 500, the status is 200 exactly when [perform_search] was
    called and returned, and the body is either the result [perform_search]
    returned or a dictionary [{"error": msg}]. *)
Theorem do_search_outcome (cfg : settings) (env : collaborators)
    (req : request) (course_id : option string) :
  (∀ e, (run (do_search cfg env req course_id)).1 = Raise e
        ↔ set_search_enviroment env req course_id = Raise e)
  ∧ ∀ resp,
      (run (do_search cfg env req course_id)).1 = Ret resp →
      content_type resp = "application/json"
      ∧ (status resp = 200 ∨ status resp = 500)
      ∧ (status resp = 200
         ↔ ∃ r, search_returned env
                  (calls (run (do_search cfg env req course_id)).2) r)
      ∧ ((∃ r, search_returned env
                 (calls (run (do_search cfg env req course_id)).2) r
               ∧ content resp = r)
         ∨ ∃ msg, content resp = error_body msg).
Proof.
  split; [intros e; apply do_search_raises_iff|].
  intros resp Hresp.
  destruct (do_search_content cfg env req course_id resp Hresp)
    as (Htype & Hstatus & Hcontent).
  split; [exact Htype|]. split; [exact Hstatus|].
  split; [exact (do_search_status_200_iff cfg env req course_id resp Hresp)|].
  exact Hcontent.
Qed.

Lemma do_search_outcome_witness :
  ∃ r, search_returned sink_down
         (calls (run (do_search default_settings sink_down
                        robotics_request None)).2) r.
Proof.
  pose proof (proj2 (do_search_outcome default_settings sink_down
                       robotics_request None)
                {| content := error_body
                                (generic_error_message (Some "robotics"));
                   content_type := "application/json";
                   status := 200 |}
                ltac:(vm_compute; reflexivity))
    as (_ & _ & Hiff & _).
  exact (proj1 Hiff eq_refl).
Defined.

(** Which entry of a list of calls a given call is. *)
Ltac find_call Hin :=
  cbn [calls snd] in Hin;
  repeat (apply elem_of_cons in Hin as [Hin|Hin]; [try discriminate Hin|]);
  try (apply elem_of_nil in Hin; contradiction);
  simplify_eq/=.

(** X6: [do_search] calls [perform_search] at most once and never
    [course_discovery_search]; when it calls [perform_search], the search
    environment has been set up, the term is the non-empty [search_string] of
    the request, the user and the course are those of the request, and the
    size and offset are those [_process_pagination_values] accepted. *)
Theorem do_search_calls_with_validated_arguments (cfg : settings)
    (env : collaborators) (req : request) (course_id : option string) :
  (length (search_calls (calls (run (do_search cfg env req course_id)).2))
   ≤ 1)%nat
  ∧ (∀ term size from_ fields,
       EvDiscoverySearch term size from_ fields
       ∉ calls (run (do_search cfg env req course_id)).2)
  ∧ ∀ term u size from_ cid,
      EvPerformSearch term u size from_ cid
      ∈ calls (run (do_search cfg env req course_id)).2 →
      set_search_enviroment env req course_id = Ret tt
      ∧ term = POST req !! "search_string"
      ∧ truthy term = true
      ∧ u = request_user req
      ∧ cid = course_id
      ∧ ∃ page, _process_pagination_values cfg req = Ret (size, from_, page).
Proof.
  split; [|split].
  - run_view; cbn; lia.
  - intros term size from_ fields. run_view; intros Hin; find_call Hin.
  - intros term u size from_ cid. run_view; intros Hin; find_call Hin.
    all: repeat match goal with u : unit |- _ => destruct u end.
    all: repeat split; eauto.
    all: match goal with
         | H : negb (truthy _) = false |- _ =>
             apply negb_false_iff in H; exact H
         end.
Qed.

Lemma do_search_calls_with_validated_arguments_witness :
  set_search_enviroment healthy robotics_request None = Ret tt
  ∧ Some "robotics" = POST robotics_request !! "search_string"
  ∧ truthy (Some "robotics") = true
  ∧ {| id := Some 7 |} = request_user robotics_request
  ∧ None = (None : option string)
  ∧ ∃ page, _process_pagination_values default_settings robotics_request
            = Ret (10, 20, page).
Proof.
  apply (proj2 (proj2 (do_search_calls_with_validated_arguments
                         default_settings healthy robotics_request None))
           (Some "robotics") {| id := Some 7 |} 10 20 None).
  vm_compute. pick_call.
Defined.

(** X7: the events [do_search] hands to the tracker are none, or the
    initiated event alone, or the initiated event followed by the
    results-displayed event, never anything else; there is none exactly when
    the request was turned down before the search (environment set-up
    failed, no search term, pagination rejected), and an event is handed
    over only after the set-up returned; both carry the search term with
    the accepted page size and page, and the second one is handed over only
    after [perform_search] returned a result with a [total], which it
    carries. *)
Theorem do_search_analytics_shape (cfg : settings) (env : collaborators)
    (req : request) (course_id : option string) :
  let tr := calls (run (do_search cfg env req course_id)).2 in
  let term := POST req !! "search_string" in
  (emitted tr = []
   ↔ ((∃ e, set_search_enviroment env req course_id = Raise e)
      ∨ truthy term = false
      ∨ ∃ e, _process_pagination_values cfg req = Raise e))
  ∧ ((emitted tr = []
      ∧ ((∃ e, set_search_enviroment env req course_id = Raise e)
         ∨ truthy term = false
         ∨ ∃ e, _process_pagination_values cfg req = Raise e))
     ∨ ∃ size from_ page,
         set_search_enviroment env req course_id = Ret tt
         ∧ _process_pagination_values cfg req = Ret (size, from_, page)
         ∧ truthy term = true
         ∧ (emitted tr
            = [("edx.course.search.initiated",
                initiated_payload term size page)]
            ∨ ∃ r t,
                search_returned env tr r
                ∧ py_getitem r "total" = Ret t
                ∧ emitted tr
                  = [("edx.course.search.initiated",
                      initiated_payload term size page);
                     ("edx.course.search.results_displayed",
                      displayed_payload term size page t)])).
Proof.
  cbv zeta.
  match goal with |- _ ∧ ?D => assert D as Hshape end.
  { run_view.
    all: repeat match goal with u : unit |- _ => destruct u end.
    all: try (left; split; [reflexivity|]; eauto; fail).
    all: try (left; split; [reflexivity|]; right; left;
              match goal with
              | H : negb (truthy _) = true |- _ =>
                  apply negb_true_iff in H; exact H
              end).
    all: right; do 3 eexists; (split; [reflexivity|]);
      (split; [reflexivity|]);
      (split; [match goal with
               | H : negb (truthy _) = false |- _ =>
                   apply negb_false_iff in H; exact H
               end|]).
    all: first [ left; reflexivity
               | right; do 2 eexists;
                 split; [show_search_call|];
                 split; [eassumption|reflexivity] ]. }
  split; [|exact Hshape].
  destruct Hshape
    as [[Hnone Hwhy]|(size & from_ & page & Hset & Hpag & Hterm & Hev)].
  - split; auto.
  - split.
    + intros Hnone. rewrite Hnone in Hev.
      destruct Hev as [Hev|(r & t & _ & _ & Hev)]; discriminate Hev.
    + intros [[e He]|[Hfalse|[e He]]].
      * rewrite Hset in He. discriminate He.
      * rewrite Hterm in Hfalse. discriminate Hfalse.
      * rewrite Hpag in He. discriminate He.
Qed.

(** X8: a [ValueError] raised by the search collaborator itself is handled
    like a validation error: [do_search] answers with status 500 and the
    collaborator's own message as the error, and so does
    [course_discovery] when the display-order feature is disabled. *)
Theorem search_value_error_is_shown (cfg : settings) (env : collaborators)
    (req : request) (msg : string) :
  (∀ course_id,
     search_raised env (calls (run (do_search cfg env req course_id)).2)
       (ValueError msg) →
     (run (do_search cfg env req course_id)).1
     = Ret {| content := error_body msg;
              content_type := "application/json"; status := 500 |}
     ∧ EvLogDebug msg ∈ calls (run (do_search cfg env req course_id)).2)
  ∧ (search_raised env (calls (run (course_discovery cfg env req)).2)
       (ValueError msg) →
     taxoman_enabled cfg = false →
     (run (course_discovery cfg env req)).1
     = Ret {| content := error_body msg;
              content_type := "application/json"; status := 500 |}
     ∧ EvLogDebug msg ∈ calls (run (course_discovery cfg env req)).2).
Proof.
  split.
  - intros course_id.
    run_view; intros Hsearch; find_search_call Hsearch; simplify_eq/=;
      same_outcome.
    split; [reflexivity|pick_call].
  - intros Hsearch Hoff. revert Hsearch. unfold_view.
    repeat first
      [ rewrite (taxoman_block_disabled env cfg _ Hoff)
      | progress cbn [calls results status_code fst snd]
      | case_match ];
      simplify_eq/=; intros Hsearch; find_search_call Hsearch;
      simplify_eq/=; same_outcome.
    split; [reflexivity|pick_call].
Qed.

Lemma search_value_error_is_shown_witness :
  (run (do_search default_settings search_rejects robotics_request None)).1
  = Ret {| content := error_body "Malformed query";
           content_type := "application/json"; status := 500 |}
  ∧ (run (course_discovery default_settings search_rejects
            robotics_request)).1
    = Ret {| content := error_body "Malformed query";
             content_type := "application/json"; status := 500 |}.
Proof.
  pose proof (search_value_error_is_shown default_settings search_rejects
                robotics_request "Malformed query") as [Hdo Hdisc].
  split.
  - apply (Hdo None).
    exists (EvPerformSearch (Some "robotics") {| id := Some 7 |} 10 20 None).
    split; [vm_compute; pick_call|reflexivity].
  - apply Hdisc; [|reflexivity].
    exists (EvDiscoverySearch (Some "robotics") 10 20 ∅).
    split; [vm_compute; pick_call|reflexivity].
Defined.

(** X9: when [do_search] answers, it has written nothing to the log and
    the body is the search result, or it has written exactly one entry:
    a debug entry with the very message shown in the body, or an exception
    entry with the search term, the user id and an exception that is not a
    [ValueError], the body then showing the message built from the search
    term alone. *)
Theorem do_search_logs_what_it_hides (cfg : settings) (env : collaborators)
    (req : request) (course_id : option string) (resp : HttpResponse) :
  (run (do_search cfg env req course_id)).1 = Ret resp →
  let tr := calls (run (do_search cfg env req course_id)).2 in
  let term := POST req !! "search_string" in
  (log_calls tr = []
   ∧ status resp = 200
   ∧ ∃ r, search_returned env tr r ∧ content resp = r)
  ∨ (∃ msg, log_calls tr = [EvLogDebug msg]
            ∧ content resp = error_body msg)
  ∨ (∃ e, is_ValueError e = false
          ∧ log_calls tr = [EvLogException term (id (request_user req)) e]
          ∧ content resp = error_body (generic_error_message term)).
Proof.
  cbv zeta. run_view; intros Hresp; simplify_eq/=.
  all: first
         [ left; split; [reflexivity|]; split; [reflexivity|];
           eexists; split; [show_search_call|reflexivity]
         | right; left; eexists; split; reflexivity
         | right; right; eexists; split; [|split; reflexivity];
           reflexivity ].
Qed.

Lemma do_search_logs_what_it_hides_witness :
  (log_calls (calls (run (do_search default_settings search_down
                            robotics_request None)).2) = []
   ∧ 500 = 200
   ∧ ∃ r, search_returned search_down
            (calls (run (do_search default_settings search_down
                           robotics_request None)).2) r
          ∧ error_body (generic_error_message (Some "robotics")) = r)
  ∨ (∃ msg, log_calls (calls (run (do_search default_settings search_down
                                     robotics_request None)).2)
            = [EvLogDebug msg]
            ∧ error_body (generic_error_message (Some "robotics"))
              = error_body msg)
  ∨ (∃ e, is_ValueError e = false
          ∧ log_calls (calls (run (do_search default_settings search_down
                                     robotics_request None)).2)
            = [EvLogException (Some "robotics") (Some 7) e]
          ∧ error_body (generic_error_message (Some "robotics"))
            = error_body (generic_error_message (Some "robotics"))).
Proof.
  exact (do_search_logs_what_it_hides default_settings search_down
           robotics_request None
           {| content := error_body (generic_error_message (Some "robotics"));
              content_type := "application/json";
              status := 500 |}
           ltac:(vm_compute; reflexivity)).
Defined.

(** * Further properties of [course_discovery] *)

(** The frame a handler of [course_discovery] leaves behind. *)
Ltac failed_try :=
  match goal with e : exn |- _ => destruct e end; cbn;
  eexists; (split; [reflexivity|]); cbn;
  (split; [repeat constructor|]); right;
  (split; [reflexivity|]); (split; [eauto|]);
  let p := fresh "p" in
  let Hp := fresh "Hp" in
  intros p Hp; cbn in Hp;
  repeat (apply elem_of_cons in Hp as [Hp|Hp]; [try discriminate Hp|]);
  try (apply elem_of_nil in Hp; contradiction);
  inversion Hp; subst; congruence.

(** The [try] statement of [course_discovery] never raises: it leaves
    either the search result with status 200 or an error body with status
    500, and the rest of the view starts from there. *)
Lemma course_discovery_split (cfg : settings) (env : collaborators)
    (req : request) :
  ∃ fr1,
    run (course_discovery cfg env req) = finish cfg env fr1
    ∧ Forall (λ ev, is_taxoman_call ev = false) (calls fr1)
    ∧ ((status_code fr1 = 200
        ∧ search_returned env (calls fr1) (results fr1)
        ∧ log_calls (calls fr1) = []
        ∧ ∃ p, ("edx.course_discovery.search.results_displayed", p)
               ∈ emitted (calls fr1)
               ∧ track_emit env
                   "edx.course_discovery.search.results_displayed" p
                 = Ret tt)
       ∨ (status_code fr1 = 500
          ∧ (∃ msg, results fr1 = error_body msg)
          ∧ (∀ p, ("edx.course_discovery.search.results_displayed", p)
                  ∈ emitted (calls fr1) →
                  track_emit env
                    "edx.course_discovery.search.results_displayed" p
                  ≠ Ret tt))).
Proof.
  unfold finish. unfold_view.
  destruct (_process_pagination_values cfg req) as [[[size from_] page]|e]
    eqn:Hpag; cbn; [|failed_try].
  destruct (track_emit env "edx.course_discovery.search.initiated" _)
    as [[]|e] eqn:Hinit; cbn; [|failed_try].
  destruct (course_discovery_search env _ _ _ _) as [r|e] eqn:Hsearch; cbn;
    [|failed_try].
  destruct (py_getitem r "total") as [t|e] eqn:Htotal; cbn; [|failed_try].
  destruct (track_emit env "edx.course_discovery.search.results_displayed" _)
    as [[]|e] eqn:Hshown; cbn; [|failed_try].
  eexists. split; [reflexivity|]. cbn. split; [repeat constructor|].
  left. split; [reflexivity|]. split; [show_search_call|].
  split; [reflexivity|].
  eexists. split; [|exact Hshown]. cbn.
  apply list_elem_of_In. right. left. reflexivity.
Qed.

Lemma finish_disabled (cfg : settings) (env : collaborators) (fr : frame) :
  taxoman_enabled cfg = false →
  finish cfg env fr
  = (Ret {| content := results fr; content_type := "application/json";
            status := status_code fr |}, fr).
Proof.
  intros Hoff. unfold finish, mbind, M_bind.
  rewrite (taxoman_block_disabled env cfg fr Hoff). reflexivity.
Qed.

Lemma finish_answers (cfg : settings) (env : collaborators)
    (fr1 fr : frame) (resp : HttpResponse) :
  finish cfg env fr1 = (Ret resp, fr) →
  taxoman_block cfg env fr1 = (Ret tt, fr)
  ∧ resp = {| content := results fr; content_type := "application/json";
              status := status_code fr1 |}.
Proof.
  unfold finish, mbind, M_bind.
  pose proof (taxoman_block_extends env cfg fr1) as [Hst _].
  destruct (taxoman_block cfg env fr1) as [[[]|e] fr2]; [|discriminate].
  cbn in Hst. unfold respond, get_results, get_status_code, mbind, M_bind,
    mret, M_ret. intros H; inversion H; subst. rewrite Hst. auto.
Qed.

Lemma finish_raises (cfg : settings) (env : collaborators)
    (fr1 : frame) (e : exn) :
  (finish cfg env fr1).1 = Raise e ↔ (taxoman_block cfg env fr1).1 = Raise e.
Proof.
  unfold finish, mbind, M_bind.
  destruct (taxoman_block cfg env fr1) as [[[]|e'] fr2]; cbn;
    split; intros H; try discriminate; inversion H; reflexivity.
Qed.

(** An error body has no facets to annotate: the block leaves it as it is
    when the ordering is empty and raises [KeyError('facets')] otherwise. *)
Lemma taxoman_block_on_error_body (cfg : settings) (env : collaborators)
    (fr : frame) (msg : string) (order : gmap string pyval) :
  taxoman_enabled cfg = true →
  results fr = error_body msg →
  get_facet_slugs_display_order env = Ret order →
  (order = ∅ →
   taxoman_block cfg env fr
   = (Ret tt, {| calls := calls fr ++ [EvSlugsOrder];
                 results := results fr;
                 status_code := status_code fr |}))
  ∧ (order ≠ ∅ →
     (taxoman_block cfg env fr).1 = Raise (KeyError "facets")).
Proof.
  intros Hon Hres Horder. unfold taxoman_block. rewrite Hon.
  unfold mbind, M_bind, call. rewrite Horder. split.
  - intros ->. rewrite map_to_list_empty. reflexivity.
  - intros Hne.
    destruct (map_to_list order) as [|[slug d] l] eqn:Hl.
    + apply map_to_list_empty_iff in Hl. contradiction.
    + cbn [for_each]. unfold mbind, M_bind. unfold_step.
      rewrite Hres. reflexivity.
Qed.

Lemma finish_frame (cfg : settings) (env : collaborators) (fr1 : frame) :
  (finish cfg env fr1).2 = (taxoman_block cfg env fr1).2.
Proof.
  unfold finish, mbind, M_bind.
  destruct (taxoman_block cfg env fr1) as [[[]|e] fr2]; reflexivity.
Qed.

Lemma taxoman_block_consults_the_ordering (cfg : settings)
    (env : collaborators) (fr : frame) :
  taxoman_enabled cfg = true →
  EvSlugsOrder ∈ calls (taxoman_block cfg env fr).2.
Proof.
  intros Hon. unfold taxoman_block. rewrite Hon.
  unfold mbind, M_bind, call.
  destruct (get_facet_slugs_display_order env) as [order|e]; cbn.
  - match goal with
    | |- context [for_each ?l ?f ?fr0] =>
        destruct (for_each_extends env l fr0) as [_ (extra & Hc & _)];
        rewrite Hc
    end.
    cbn. rewrite !elem_of_app. left. right. apply list_elem_of_here.
  - apply elem_of_app. right. apply list_elem_of_here.
Qed.

Lemma taxoman_block_keeps_error_body (cfg : settings) (env : collaborators)
    (fr1 fr : frame) (msg : string) :
  taxoman_block cfg env fr1 = (Ret tt, fr) →
  results fr1 = error_body msg →
  results fr = error_body msg.
Proof.
  intros Hrun Hres.
  destruct (taxoman_enabled cfg) eqn:Hon.
  - destruct (taxoman_block_annotates env cfg fr1 fr Hon Hrun)
      as (order & _ & [[_ ->]|(rd & facets & facets' & Hr & Hf & _)]).
    + exact Hres.
    + rewrite Hres in Hr. inversion Hr; subst rd.
      rewrite lookup_singleton_ne in Hf by discriminate. discriminate Hf.
  - rewrite (taxoman_block_disabled env cfg fr1 Hon) in Hrun.
    inversion Hrun; subst. exact Hres.
Qed.

(** X10: [course_discovery] raises only out of the display-order block, so
    never when the feature is disabled; when it answers, the answer is JSON
    with status 200 or 500, the status is 200 exactly when the tracker has
    accepted the results-displayed event (the last step of the [try] block),
    a 500 answer always carries a dictionary [{"error": msg}], and with the
    feature disabled a 200 answer carries the search result itself. *)
Theorem course_discovery_outcome (cfg : settings) (env : collaborators)
    (req : request) :
  (taxoman_enabled cfg = false →
   ∃ resp, (run (course_discovery cfg env req)).1 = Ret resp)
  ∧ (∀ e, (run (course_discovery cfg env req)).1 = Raise e →
          taxoman_enabled cfg = true
          ∧ EvSlugsOrder ∈ calls (run (course_discovery cfg env req)).2)
  ∧ ∀ resp,
      (run (course_discovery cfg env req)).1 = Ret resp →
      let tr := calls (run (course_discovery cfg env req)).2 in
      content_type resp = "application/json"
      ∧ (status resp = 200 ∨ status resp = 500)
      ∧ (status resp = 200
         ↔ ∃ p, ("edx.course_discovery.search.results_displayed", p)
                ∈ emitted tr
                ∧ track_emit env
                    "edx.course_discovery.search.results_displayed" p
                  = Ret tt)
      ∧ (status resp = 500 → ∃ msg, content resp = error_body msg)
      ∧ (status resp = 200 → taxoman_enabled cfg = false →
         ∃ r, search_returned env tr r ∧ content resp = r).
Proof.
  destruct (course_discovery_split cfg env req)
    as (fr1 & Hrun & Hnotax & Hcases).
  rewrite Hrun. split; [|split].
  - intros Hoff. rewrite (finish_disabled cfg env fr1 Hoff). eauto.
  - intros e Hraise. apply finish_raises in Hraise.
    destruct (taxoman_enabled cfg) eqn:Hon.
    + split; [reflexivity|]. rewrite finish_frame.
      apply taxoman_block_consults_the_ordering. exact Hon.
    + rewrite (taxoman_block_disabled env cfg fr1 Hon) in Hraise.
      discriminate Hraise.
  - intros resp Hresp. cbv zeta.
    destruct (finish cfg env fr1) as [out fr] eqn:Hfin. cbn in Hresp.
    subst out. apply finish_answers in Hfin as [Htax ->]. cbn.
    pose proof (taxoman_block_extends env cfg fr1) as Hext.
    rewrite Htax in Hext. cbn in Hext.
    destruct (extends_observations fr1 fr Hext) as (_ & Hem & _ & Hin).
    rewrite Hem. split; [reflexivity|].
    destruct Hcases
      as [(Hst & Hsearch & _ & Hshown)|(Hst & [msg Hbody] & Hrefused)];
      rewrite Hst.
    + split; [auto|]. split; [tauto|]. split; [discriminate|].
      intros _ Hoff.
      rewrite (taxoman_block_disabled env cfg fr1 Hoff) in Htax.
      inversion Htax; subst fr. eauto.
    + split; [auto|]. split; [|split].
      * split; [discriminate|]. intros (p & Hp & Hok).
        destruct (Hrefused p Hp Hok).
      * intros _. exists msg.
        exact (taxoman_block_keeps_error_body cfg env fr1 fr msg Htax Hbody).
      * discriminate.
Qed.

Lemma course_discovery_outcome_witness :
  ∃ resp, (run (course_discovery default_settings sink_down
                  robotics_request)).1 = Ret resp.
Proof.
  exact (proj1 (course_discovery_outcome default_settings sink_down
                  robotics_request) eq_refl).
Defined.

Lemma elem_of_extends (fr fr' : frame) (ev : event) :
  extends fr fr' → ev ∈ calls fr' → is_taxoman_call ev = false →
  ev ∈ calls fr.
Proof.
  intros [_ (extra & -> & Hx)] Hin Hev.
  apply elem_of_app in Hin as [Hin|Hin]; [exact Hin|].
  rewrite Forall_forall in Hx. rewrite (Hx ev Hin) in Hev. discriminate.
Qed.

(** A call that is not one to the ordering collaborator was made before
    the display-order block. *)
Ltac before_taxoman Hin :=
  match goal with
  | H : taxoman_block ?cfg ?env ?fr = (_, ?fr') |- _ =>
      let Hext := fresh "Hext" in
      pose proof (taxoman_block_extends env cfg fr) as Hext;
      rewrite H in Hext; cbn [snd] in Hext;
      apply (elem_of_extends fr fr' _ Hext) in Hin; [|reflexivity]
  end.

(** X11: [course_discovery] calls [course_discovery_search] at most once,
    and neither [perform_search] nor the search-environment set-up; when it
    calls [course_discovery_search], the term is the [search_string] of the
    request as it came (absent or empty included), the field dictionary is
    the one [_process_field_values] built, and the size and offset are those
    [_process_pagination_values] accepted. *)
Theorem course_discovery_calls_with_validated_arguments (cfg : settings)
    (env : collaborators) (req : request) :
  (length (search_calls (calls (run (course_discovery cfg env req)).2))
   ≤ 1)%nat
  ∧ (∀ term u size from_ cid,
       EvPerformSearch term u size from_ cid
       ∉ calls (run (course_discovery cfg env req)).2)
  ∧ (∀ r cid, EvInit r cid ∉ calls (run (course_discovery cfg env req)).2)
  ∧ ∀ term size from_ fields,
      EvDiscoverySearch term size from_ fields
      ∈ calls (run (course_discovery cfg env req)).2 →
      term = POST req !! "search_string"
      ∧ fields = _process_field_values env req
      ∧ ∃ page, _process_pagination_values cfg req = Ret (size, from_, page).
Proof.
  split; [|split; [|split]].
  - run_view; after_taxoman;
      match goal with H : search_calls _ = _ |- _ => rewrite H end;
      cbn; lia.
  - intros term u size from_ cid.
    run_view; intros Hin; before_taxoman Hin; find_call Hin.
  - intros r cid.
    run_view; intros Hin; before_taxoman Hin; find_call Hin.
  - intros term size from_ fields.
    run_view; intros Hin; before_taxoman Hin; find_call Hin.
    all: repeat split; eauto.
Qed.

Lemma course_discovery_calls_with_validated_arguments_witness :
  None = POST empty_request !! "search_string"
  ∧ (∅ : gmap string string) = _process_field_values healthy empty_request
  ∧ ∃ page, _process_pagination_values default_settings empty_request
            = Ret (20, 0, page).
Proof.
  apply (proj2 (proj2 (proj2
           (course_discovery_calls_with_validated_arguments
              default_settings healthy empty_request)))
           None 20 0 ∅).
  vm_compute. pick_call.
Defined.

(** X12: with the display-order feature enabled and an ordering that knows
    at least one slug, [course_discovery] answers only for searches that
    went through and whose result holds a [facets] dictionary, always with
    status 200; it never returns an error answer, and in particular a
    request whose pagination is rejected ends in [KeyError('facets')]
    raised out of the view. *)
Theorem discovery_with_ordering_answers_only_successes (cfg : settings)
    (env : collaborators) (req : request) (order : gmap string pyval) :
  taxoman_enabled cfg = true →
  get_facet_slugs_display_order env = Ret order →
  order ≠ ∅ →
  (∀ resp,
     (run (course_discovery cfg env req)).1 = Ret resp →
     status resp = 200
     ∧ ∃ r facets,
         search_returned env (calls (run (course_discovery cfg env req)).2) r
         ∧ py_getitem r "facets" = Ret (PDict facets))
  ∧ (∀ e, _process_pagination_values cfg req = Raise e →
          (run (course_discovery cfg env req)).1 = Raise (KeyError "facets")).
Proof.
  intros Hon Horder Hne. split.
  - destruct (course_discovery_split cfg env req)
      as (fr1 & Hrun & _ & Hcases).
    rewrite Hrun. intros resp Hresp.
    destruct (finish cfg env fr1) as [out fr] eqn:Hfin. cbn in Hresp.
    subst out. apply finish_answers in Hfin as [Htax ->]. cbn.
    destruct Hcases as [(Hst & Hsearch & _)|(_ & [msg Hbody] & _)].
    + split; [exact Hst|].
      destruct (taxoman_block_annotates env cfg fr1 fr Hon Htax)
        as (order' & Horder' & Hann).
      rewrite Horder in Horder'. inversion Horder'; subst order'.
      destruct Hann as [[Hempty _]|(rd & facets & _ & Hr & Hf & _)];
        [contradiction|].
      exists (results fr1), facets. split.
      * destruct Hsearch as (ev & Hin & Hout). exists ev.
        split; [|exact Hout].
        pose proof (taxoman_block_extends env cfg fr1) as Hext.
        rewrite Htax in Hext. apply (extends_observations _ _ Hext).
        exact Hin.
      * rewrite Hr. cbn. rewrite Hf. reflexivity.
    + destruct (taxoman_block_on_error_body cfg env fr1 msg order
                  Hon Hbody Horder) as [_ Hraise].
      rewrite Htax in Hraise. discriminate (Hraise Hne).
  - intros e Hpag. unfold_view. rewrite Hpag. cbn.
    destruct e; cbn;
      match goal with
      | |- context [taxoman_block cfg env ?fr] =>
          destruct (taxoman_block_on_error_body cfg env fr _ order
                      Hon eq_refl Horder) as [_ Hraise];
          specialize (Hraise Hne);
          destruct (taxoman_block cfg env fr) as [[[]|e'] fr']
      end; cbn in *; try discriminate; inversion Hraise; reflexivity.
Qed.

Lemma discovery_with_ordering_answers_only_successes_witness :
  (run (course_discovery taxoman_settings healthy zero_page_size_request)).1
  = Raise (KeyError "facets").
Proof.
  apply (proj2 (discovery_with_ordering_answers_only_successes
                  taxoman_settings healthy zero_page_size_request
                  sample_order eq_refl eq_refl
                  ltac:(intros H; apply (f_equal (lookup "org")) in H;
                        vm_compute in H; discriminate H))
           (ValueError "Invalid page size of 0")).
  vm_compute. reflexivity.
Defined.

(** X13: with the display-order feature enabled, an exception raised by
    [get_facet_slugs_display_order] always leaves the view, whatever the
    search did: a successful search is not answered either. *)
Theorem ordering_failure_leaves_the_view (cfg : settings)
    (env : collaborators) (req : request) (e : exn) :
  taxoman_enabled cfg = true →
  get_facet_slugs_display_order env = Raise e →
  (run (course_discovery cfg env req)).1 = Raise e.
Proof.
  intros Hon Horder.
  destruct (course_discovery_split cfg env req) as (fr1 & Hrun & _).
  rewrite Hrun. apply finish_raises.
  unfold taxoman_block. rewrite Hon. unfold mbind, M_bind, call.
  rewrite Horder. reflexivity.
Qed.

Lemma ordering_failure_leaves_the_view_witness :
  (run (course_discovery taxoman_settings ordering_down robotics_request)).1
  = Raise (OtherError "taxoman unavailable").
Proof.
  apply (ordering_failure_leaves_the_view taxoman_settings ordering_down
           robotics_request); reflexivity.
Defined.

Lemma taxoman_block_empty_order (cfg : settings) (env : collaborators)
    (fr : frame) :
  taxoman_enabled cfg = true →
  get_facet_slugs_display_order env = Ret ∅ →
  taxoman_block cfg env fr
  = (Ret tt, {| calls := calls fr ++ [EvSlugsOrder];
                results := results fr;
                status_code := status_code fr |}).
Proof.
  intros Hon Horder. unfold taxoman_block. rewrite Hon.
  unfold mbind, M_bind, call. rewrite Horder, map_to_list_empty.
  reflexivity.
Qed.

Lemma taxoman_calls_none (tr : list event) :
  Forall (λ ev, is_taxoman_call ev = false) tr → taxoman_calls tr = [].
Proof.
  induction 1 as [|ev tr Hev _ IH]; [reflexivity|].
  unfold taxoman_calls. cbn. rewrite Hev. exact IH.
Qed.

(** X14: with the display-order feature enabled but an ordering that knows
    no slug, [course_discovery] always answers, and as it does with the
    feature disabled: the result is never inspected or changed, so a 200
    answer carries the search result as returned (with or without facets)
    and a 500 answer an error dictionary; the only call to the ordering
    collaborator is the one for the slugs. *)
Theorem empty_ordering_changes_nothing (cfg : settings) (env : collaborators)
    (req : request) :
  taxoman_enabled cfg = true →
  get_facet_slugs_display_order env = Ret ∅ →
  ∃ resp,
    (run (course_discovery cfg env req)).1 = Ret resp
    ∧ taxoman_calls (calls (run (course_discovery cfg env req)).2)
      = [EvSlugsOrder]
    ∧ (status resp = 200 →
       ∃ r, search_returned env
              (calls (run (course_discovery cfg env req)).2) r
            ∧ content resp = r)
    ∧ (status resp ≠ 200 →
       status resp = 500 ∧ ∃ msg, content resp = error_body msg).
Proof.
  intros Hon Horder.
  destruct (course_discovery_split cfg env req)
    as (fr1 & Hrun & Hnotax & Hcases).
  rewrite Hrun. unfold finish, mbind, M_bind.
  rewrite (taxoman_block_empty_order cfg env fr1 Hon Horder).
  unfold respond, get_results, get_status_code, mbind, M_bind, mret, M_ret.
  cbn. eexists. split; [reflexivity|]. cbn. split; [|split].
  - unfold taxoman_calls. rewrite List.filter_app. cbn.
    fold (taxoman_calls (calls fr1)).
    rewrite (taxoman_calls_none _ Hnotax). reflexivity.
  - intros Hst.
    destruct Hcases as [(_ & (ev & Hin & Hout) & _)|(Hst' & _)];
      [|congruence].
    exists (results fr1). split; [|reflexivity].
    exists ev. split; [|exact Hout]. apply elem_of_app. left. exact Hin.
  - intros Hst. destruct Hcases as [(Hst' & _)|(Hst' & Hbody & _)];
      [contradiction|]. split; assumption.
Qed.

Lemma empty_ordering_changes_nothing_witness :
  ∃ resp,
    (run (course_discovery taxoman_settings no_ordering robotics_request)).1
    = Ret resp
    ∧ taxoman_calls
        (calls (run (course_discovery taxoman_settings no_ordering
                       robotics_request)).2)
      = [EvSlugsOrder]
    ∧ (status resp = 200 →
       ∃ r, search_returned no_ordering
              (calls (run (course_discovery taxoman_settings no_ordering
                             robotics_request)).2) r
            ∧ content resp = r)
    ∧ (status resp ≠ 200 →
       status resp = 500 ∧ ∃ msg, content resp = error_body msg).
Proof.
  apply (empty_ordering_changes_nothing taxoman_settings no_ordering
           robotics_request); reflexivity.
Defined.

(** * Further properties of the display-order block *)

Lemma facet_annotated_unique (env : collaborators)
    (order facets f1 f2 : gmap string pyval) :
  (∀ slug, facet_annotated env order facets f1 slug) →
  (∀ slug, facet_annotated env order facets f2 slug) →
  f1 = f2.
Proof.
  intros H1 H2. apply map_eq. intros slug.
  specialize (H1 slug). specialize (H2 slug).
  unfold facet_annotated in *.
  destruct (facets !! slug) as [facet|]; [|congruence].
  destruct (order !! slug) as [d|]; [|congruence].
  destruct H1 as (fields1 & fv1 & Hf1 & Hv1 & ->).
  destruct H2 as (fields2 & fv2 & Hf2 & Hv2 & ->).
  congruence.
Qed.

Lemma results_annotated_unique (env : collaborators)
    (order : gmap string pyval) (r c1 c2 : pyval) :
  results_annotated env order r c1 → results_annotated env order r c2 →
  c1 = c2.
Proof.
  assert (Hmixed : ∀ c c', order = ∅ → c = r →
            (∃ rd facets facets',
               r = PDict rd ∧ rd !! "facets" = Some (PDict facets)
               ∧ c' = PDict (<["facets" := PDict facets']> rd)
               ∧ ∀ slug, facet_annotated env order facets facets' slug) →
            c = c').
  { intros c c' Hempty -> (rd & facets & facets' & -> & Hf & -> & Hall).
    assert (facets' = facets) as ->.
    { apply (facet_annotated_unique env order facets); [exact Hall|].
      intros slug. rewrite Hempty. apply facet_annotated_empty. }
    rewrite insert_id by exact Hf. reflexivity. }
  intros [[He1 Hc1]|H1] [[He2 Hc2]|H2].
  - congruence.
  - apply Hmixed; assumption.
  - symmetry. apply Hmixed; assumption.
  - destruct H1 as (rd1 & fa1 & f1 & Hr1 & Hf1 & -> & Hall1).
    destruct H2 as (rd2 & fa2 & f2 & Hr2 & Hf2 & -> & Hall2).
    rewrite Hr1 in Hr2. inversion Hr2; subst rd2.
    rewrite Hf1 in Hf2. inversion Hf2; subst fa2.
    rewrite (facet_annotated_unique env order fa1 f1 f2 Hall1 Hall2).
    reflexivity.
Qed.

(** X15: the outcome of the annotation loop does not depend on the order
    in which the dictionary of display orders is iterated: if the loop runs
    to its end over the entries taken in one order, it does so over any
    other order of the same entries, and leaves the same [results] and
    status code. *)
Theorem annotation_order_is_irrelevant (env : collaborators)
    (l1 l2 : list (string * pyval)) (fr fr1 : frame) :
  NoDup l1.*1 →
  l1 ≡ₚ l2 →
  for_each l1 (annotate_facet env) fr = (Ret tt, fr1) →
  ∃ fr2,
    for_each l2 (annotate_facet env) fr = (Ret tt, fr2)
    ∧ results fr2 = results fr1
    ∧ status_code fr2 = status_code fr1.
Proof.
  intros Hnodup Hperm Hrun.
  assert (NoDup l2.*1) as Hnodup2 by (rewrite <- Hperm; exact Hnodup).
  assert (Hstatus : ∀ l fr',
            for_each l (annotate_facet env) fr = (Ret tt, fr') →
            status_code fr' = status_code fr).
  { intros l fr' Hl. pose proof (for_each_extends env l fr) as [Hs _].
    rewrite Hl in Hs. exact Hs. }
  pose proof (for_each_annotates env l1 Hnodup fr fr1 Hrun) as Hann1.
  destruct l1 as [|[slug0 d0] l1'].
  { apply Permutation_nil_l in Hperm. subst l2. exists fr1.
    split; [exact Hrun|]. split; reflexivity. }
  destruct Hann1 as [[Hempty _]|(rd & facets & facets' & Hr & Hf & Hc & Hall)].
  { cbn in Hempty. exfalso. revert Hempty. apply insert_non_empty. }
  assert (annotatable env l2 facets) as Hok.
  { intros slug d Hin. rewrite <- Hperm in Hin.
    apply (elem_of_list_to_map_1 (M := gmap string)) in Hin;
      [|exact Hnodup].
    specialize (Hall slug). unfold facet_annotated in Hall.
    destruct (facets !! slug) as [facet|]; [|exact I].
    rewrite Hin in Hall. destruct Hall as (fields & fv & -> & Hfv & _).
    split; eauto. }
  destruct (for_each_completes env l2 fr rd facets Hr Hf Hok) as [fr2 Hrun2].
  exists fr2. split; [exact Hrun2|]. split.
  - pose proof (for_each_annotates env l2 Hnodup2 fr fr2 Hrun2) as Hann2.
    rewrite <- (list_to_map_proper (M := gmap string) _ _ Hnodup Hperm)
      in Hann2.
    apply (results_annotated_unique env
             (list_to_map ((slug0, d0) :: l1')) (results fr));
      [exact Hann2|].
    right. exists rd, facets, facets'. auto.
  - rewrite (Hstatus _ _ Hrun), (Hstatus _ _ Hrun2). reflexivity.
Qed.

Lemma annotation_order_is_irrelevant_witness :
  ∃ fr2,
    for_each sample_entries_swapped (annotate_facet healthy) sample_frame
    = (Ret tt, fr2)
    ∧ results fr2
      = results (for_each sample_entries (annotate_facet healthy)
                   sample_frame).2
    ∧ status_code fr2
      = status_code (for_each sample_entries (annotate_facet healthy)
                       sample_frame).2.
Proof.
  apply (annotation_order_is_irrelevant healthy sample_entries
           sample_entries_swapped sample_frame).
  - apply (bool_decide_unpack _). vm_compute. reflexivity.
  - apply perm_swap.
  - vm_compute. reflexivity.
Defined.


